(** * emailbuilder-backend: the REST handlers of [server.js]

    [server.js] is a thin Express application: five routes over one Mongoose
    model ([EmailTemplate]) and one route over the Multer/Cloudinary upload
    middleware.  The handlers are embedded here as pure functions

      world -> request data -> server state -> server state * response

    where the [world] carries what a request draws from outside the process
    (clock, generated ObjectId, reachability of the two remote services).

    The handlers ([Module Server]) follow [server.js] line by line.  What they
    call is library code; [Module Mongoose] and [Module Upload] give the
    behaviour of exactly those library entry points that [server.js] uses,
    with the options [server.js] passes:

    - the body parser hands the handler an object or an array
      ([express.json()] in its default strict mode);
    - schema casting of [title] (String) and [sections] (Array of Mixed),
      [required], [default] and [timestamps];
    - the schema option [minimize], which [server.js] leaves at its default
      ([true]): [toObject] and [toJSON] go through the minimizing copy;
    - an [_id] filter is cast to ObjectId, and a string that is not 24
      hexadecimal digits makes the query reject;
    - update casting removes [undefined] properties (Mongoose 6 and later);
    - [multer.single] takes one file under the named field and aborts on any
      other file part;
    - the upload API enforces [allowed_formats] and files the asset under
      [folder] (modelled from the spec, see [Upload.upload]).

    The libraries treat objects with certain property names ([constructor],
    [_bsontype], ...) in ways of their own.  Statements that promise what a
    write stores or returns are made for plain section data
    ([Module Plain]). *)

From Stdlib Require Import NArith Ascii.
From stdpp Require Import gmap strings list fin_maps.

Local Open Scope string_scope.

(** ** JavaScript values as produced by [express.json()] *)

Module JS.

(** A parsed JSON value.  A number is kept as its canonical rendering
    ([Number.prototype.toString]); no handler computes with numbers.  An
    object keeps its properties in insertion order. *)
#[local] Unset Elimination Schemes.
Inductive value : Type :=
  | Null
  | Bool (b : bool)
  | Num (repr : string)
  | Str (s : string)
  | Arr (items : list value)
  | Obj (props : list (string * value)).

#[local] Set Elimination Schemes.

(** Induction through the nested lists: array items and property values
    carry the induction hypothesis. *)
Section value_induction.
Variable P : value -> Prop.
Hypothesis HNull : P Null.
Hypothesis HBool : forall b, P (Bool b).
Hypothesis HNum : forall repr, P (Num repr).
Hypothesis HStr : forall s, P (Str s).
Hypothesis HArr : forall items, Forall P items -> P (Arr items).
Hypothesis HObj : forall props, Forall (fun kv => P kv.2) props -> P (Obj props).

Fixpoint value_ind (v : value) : P v :=
  match v with
  | Null => HNull
  | Bool b => HBool b
  | Num repr => HNum repr
  | Str s => HStr s
  | Arr items =>
      HArr items
        (list_ind (Forall P) (Forall_nil_2 P)
           (fun x _ IH => Forall_cons_2 P x _ (value_ind x) IH) items)
  | Obj props =>
      HObj props
        (list_ind (Forall (fun kv => P kv.2)) (Forall_nil_2 _)
           (fun kv _ IH => Forall_cons_2 (fun kv => P kv.2) kv _ (value_ind kv.2) IH) props)
  end.
End value_induction.

(** Own-property read [o[k]]; [None] is [undefined].  Only objects carry
    the properties the handlers destructure ([title], [sections]); an array
    body (the other top-level form [express.json()] lets through) has
    neither. *)
Fixpoint lookup_prop (k : string) (props : list (string * value)) : option value :=
  match props with
  | [] => None
  | (k', v) :: rest => if String.eqb k k' then Some v else lookup_prop k rest
  end.

Definition prop (k : string) (o : value) : option value :=
  match o with
  | Obj props => lookup_prop k props
  | _ => None
  end.

End JS.

Import JS.

(** ** The outside world *)

(** What one request draws from outside the process. *)
Record world := World {
  now : N;                (* Date.now() *)
  entropy : N;            (* what [new ObjectId()] is built from *)
  mongo_up : bool;        (* the connection opened by mongoose.connect works *)
  cloudinary_up : bool;   (* the upload API answers and accepts the credentials *)
  public_id : string;     (* name the upload API gives the next asset *)
  secure_url : string     (* URL the upload API gives the next asset *)
}.

(** ** The Mongoose entry points used by [server.js] *)

Module Mongoose.

(** Property names that the document copy never carries over. *)
Definition specialProperties (k : string) : bool :=
  String.eqb k "__proto__" || String.eqb k "constructor" || String.eqb k "prototype".

(** [clone] with [minimize: true], the copy behind [toObject]/[toJSON] and
    hence behind what [save()] writes and what [res.json(doc)] sends.
    [None] is [undefined].  An object whose copy keeps no property becomes
    [undefined] (and is then dropped from its parent object) unless it is a
    direct array element; arrays are never dropped.

    This is the library's path for ordinary objects.  An object with an own
    property named [constructor] leaves it: depending on that property's
    value the library returns the object as it is, unminimized, or throws.
    Statements about what is copied are therefore made for plain values
    ([Plain.plain]) only. *)
Fixpoint clone (isArrayChild : bool) (obj : value) {struct obj} : option value :=
  match obj with
  | Arr items =>
      Some (Arr ((fix cloneArray (arr : list value) : list value :=
                    match arr with
                    | [] => []
                    | x :: arr' => default Null (clone true x) :: cloneArray arr'
                    end) items))
  | Obj props =>
      let ret :=
        (fix cloneObject (ps : list (string * value)) : list (string * value) :=
           match ps with
           | [] => []
           | (k, v) :: ps' =>
               if specialProperties k then cloneObject ps'
               else match clone false v with
                    | Some v' => (k, v') :: cloneObject ps'
                    | None => cloneObject ps'
                    end
           end) props in
      if isArrayChild then Some (Obj ret)
      else match ret with
           | [] => None
           | _ => Some (Obj ret)
           end
  | _ => Some obj
  end.

(** The two inner loops of [clone], named. *)
Definition cloneArray (arr : list value) : list value :=
  map (fun x => default Null (clone true x)) arr.

Fixpoint cloneObject (ps : list (string * value)) : list (string * value) :=
  match ps with
  | [] => []
  | (k, v) :: ps' =>
      if specialProperties k then cloneObject ps'
      else match clone false v with
           | Some v' => (k, v') :: cloneObject ps'
           | None => cloneObject ps'
           end
  end.

(** Values that the minimizing copy leaves as they are: no property named
    like a special property, and no object without properties except as a
    direct array element. *)
Fixpoint minimal (isArrayChild : bool) (v : value) {struct v} : bool :=
  match v with
  | Arr items =>
      (fix all (arr : list value) : bool :=
         match arr with
         | [] => true
         | x :: arr' => minimal true x && all arr'
         end) items
  | Obj props =>
      (isArrayChild || match props with [] => false | _ => true end)
      && (fix all (ps : list (string * value)) : bool :=
            match ps with
            | [] => true
            | (k, x) :: ps' => negb (specialProperties k) && minimal false x && all ps'
            end) props
  | _ => true
  end.

(** *** ObjectId *)

(** A 12-byte identifier, kept as the number its 24 hexadecimal digits
    denote. *)
Definition ObjectId := N.

Definition hexval (c : ascii) : option N :=
  let n := N_of_ascii c in
  if (48 <=? n)%N && (n <=? 57)%N then Some (n - 48)%N
  else if (97 <=? n)%N && (n <=? 102)%N then Some (n - 87)%N
  else if (65 <=? n)%N && (n <=? 70)%N then Some (n - 55)%N
  else None.

Definition hexchar (d : N) : ascii :=
  ascii_of_N (if (d <? 10)%N then 48 + d else 87 + d)%N.

Fixpoint parse_hex (acc : N) (s : string) : option N :=
  match s with
  | EmptyString => Some acc
  | String c s' =>
      match hexval c with
      | Some d => parse_hex (acc * 16 + d)%N s'
      | None => None
      end
  end.

(** Casting the [:id] route parameter for an [_id] filter: a string is an
    ObjectId exactly when it is 24 hexadecimal digits; anything else makes
    the query reject with a CastError. *)
Definition castObjectId (id : string) : option ObjectId :=
  if Nat.eqb (String.length id) 24 then parse_hex 0 id else None.

Fixpoint hex_digits (k : nat) (n : N) (tail : string) : string :=
  match k with
  | O => tail
  | S k' => hex_digits k' (n / 16)%N (String (hexchar (n mod 16)%N) tail)
  end.

(** How an ObjectId appears in a JSON response (and so in the URL of a
    follow-up request). *)
Definition toHexString (oid : ObjectId) : string := hex_digits 24 oid "".

(** *** Documents of the [EmailTemplate] model *)

(** [emailTemplateSchema]: [title], [sections], the two [timestamps] fields,
    and the [_id] and version key every Mongoose document has.  A stored
    [title] is a string or [null] ([None]); stored [sections] are an array or
    [null]. *)
Record document := Document {
  _id : ObjectId;
  title : option string;
  sections : option (list value);
  createdAt : N;
  updatedAt : N;
  __v : N
}.

Definition new_ObjectId (w : world) : ObjectId := (entropy w mod 16 ^ 24)%N.

Inductive store_error :=
  | CastError
  | ValidationError
  | DuplicateKey
  | MongoNetworkError.

Inductive casted (A : Type) :=
  | Casted (a : A)
  | CastFailed.
Arguments Casted {A} a.
Arguments CastFailed {A}.

(** SchemaString cast: [null] stays, a string is taken as it is, a number
    or boolean through its [toString()], an object carrying a non-empty
    string [_id] as that string; arrays and other plain objects do not
    cast. *)
Definition castString (v : value) : casted (option string) :=
  match v with
  | Null => Casted None
  | Str s => Casted (Some s)
  | Num repr => Casted (Some repr)
  | Bool b => Casted (Some (if b then "true" else "false"))
  | Arr _ => CastFailed
  | Obj props =>
      match lookup_prop "_id" props with
      | Some (Str s) => if String.eqb s "" then CastFailed else Casted (Some s)
      | _ => CastFailed
      end
  end.

(** SchemaArray cast with Mixed elements: [null] stays, an array is taken
    element by element without change, any other value becomes a
    one-element array. *)
Definition castArray (v : value) : option (list value) :=
  match v with
  | Null => None
  | Arr items => Some items
  | _ => Some [v]
  end.

(** [new EmailTemplate({ title, sections })]: the document under
    construction.  Cast failures are kept and reported by validation; an
    [undefined] [sections] takes the schema default [[]]. *)
Record draft := Draft {
  draft_id : ObjectId;
  draft_title : casted (option string);
  draft_sections : option (list value)
}.

Definition EmailTemplate (w : world) (title sections : option value) : draft :=
  {| draft_id := new_ObjectId w;
     draft_title := match title with
                    | None => Casted None
                    | Some v => castString v
                    end;
     draft_sections := match sections with
                       | None => Some []
                       | Some v => castArray v
                       end |}.

(** [required: true] on a String path: present and not the empty string. *)
Definition validate (d : draft) : option string :=
  match draft_title d with
  | Casted (Some s) => if String.eqb s "" then None else Some s
  | _ => None
  end.

(** [toObject] / [toJSON] of a document: the minimizing copy of its fields.
    Only [sections] holds values the copy can change. *)
Definition toJSON (d : document) : document :=
  {| _id := _id d;
     title := title d;
     sections := cloneArray <$> sections d;
     createdAt := createdAt d;
     updatedAt := updatedAt d;
     __v := __v d |}.

(** [doc.save()] of a new document: validate, stamp [createdAt] and
    [updatedAt], insert [toObject(doc)].  Yields the new collection and the
    saved document.

    The failures given here are those of validation, of the connection and
    of the key.  The real write can also fail on the content of [sections]
    (an exception of the copy, or of the BSON serializer for an object that
    carries [_bsontype]); that does not happen for plain sections
    ([Plain.plain_sections]), and success is claimed for those only. *)
Definition save (w : world) (d : draft) (coll : gmap ObjectId document)
  : store_error + (gmap ObjectId document * document) :=
  match validate d with
  | None => inl ValidationError
  | Some t =>
      let doc := {| _id := draft_id d; title := Some t;
                    sections := draft_sections d;
                    createdAt := now w; updatedAt := now w; __v := 0 |} in
      if negb (mongo_up w) then inl MongoNetworkError
      else match coll !! draft_id d with
           | Some _ => inl DuplicateKey
           | None => inr (<[draft_id d := toJSON doc]> coll, doc)
           end
  end.

(** [Model.find()]. *)
Definition find (w : world) (coll : gmap ObjectId document)
  : store_error + list document :=
  if mongo_up w then inr (snd <$> map_to_list coll) else inl MongoNetworkError.

(** [Model.findById(id)]. *)
Definition findById (w : world) (id : string) (coll : gmap ObjectId document)
  : store_error + option document :=
  match castObjectId id with
  | None => inl CastError
  | Some oid => if mongo_up w then inr (coll !! oid) else inl MongoNetworkError
  end.

(** The update document [{ title, sections }] after casting: properties
    that are [undefined] are removed, the others are cast by their schema
    type and end up under [$set].

    Only the cast of [title] fails here.  The real update also copies and
    serialises [sections] before the store is asked and can throw there for
    values that are not plain; success of an update is claimed for plain
    update bodies ([Plain.plain_update]) only. *)
Record update := Update {
  set_title : option (option string);
  set_sections : option (option (list value))
}.

Definition castUpdate (title sections : option value) : casted update :=
  match title with
  | None => Casted {| set_title := None; set_sections := castArray <$> sections |}
  | Some v =>
      match castString v with
      | Casted t => Casted {| set_title := Some t; set_sections := castArray <$> sections |}
      | CastFailed => CastFailed
      end
  end.

Definition applyUpdate (w : world) (u : update) (d : document) : document :=
  {| _id := _id d;
     title := default (title d) (set_title u);
     sections := default (sections d) (set_sections u);
     createdAt := createdAt d;
     updatedAt := now w;
     __v := __v d |}.

(** [Model.findByIdAndUpdate(id, { title, sections }, { new: true })]:
    [null] when no document has the id, otherwise the document after the
    update.  Its failures are those of the two casts and of the connection
    (see [castUpdate] for what is left out). *)
Definition findByIdAndUpdate (w : world) (id : string) (title sections : option value)
    (coll : gmap ObjectId document)
  : store_error + (gmap ObjectId document * option document) :=
  match castObjectId id with
  | None => inl CastError
  | Some oid =>
      match castUpdate title sections with
      | CastFailed => inl CastError
      | Casted u =>
          if negb (mongo_up w) then inl MongoNetworkError
          else match coll !! oid with
               | None => inr (coll, None)
               | Some d => let d' := applyUpdate w u d in
                           inr (<[oid := d']> coll, Some d')
               end
      end
  end.

(** [Model.findByIdAndDelete(id)]: [null] when no document has the id,
    otherwise the removed document. *)
Definition findByIdAndDelete (w : world) (id : string) (coll : gmap ObjectId document)
  : store_error + (gmap ObjectId document * option document) :=
  match castObjectId id with
  | None => inl CastError
  | Some oid =>
      if negb (mongo_up w) then inl MongoNetworkError
      else match coll !! oid with
           | None => inr (coll, None)
           | Some d => inr (delete oid coll, Some d)
           end
  end.

End Mongoose.

(** ** The upload middleware: [multer({ storage })] over [CloudinaryStorage] *)

Module Upload.

(** A file part of a multipart form.  [format] is the image format the
    upload API detects in the content. *)
Record file := File {
  fieldname : string;
  originalname : string;
  format : string
}.

Inductive part :=
  | Field (name val : string)
  | FilePart (f : file).

(** An asset held by the media host. *)
Record asset := Asset {
  asset_folder : string;
  asset_id : string;
  asset_format : string
}.

(** The [params] object given to [new CloudinaryStorage]. *)
Record params := Params {
  folder : string;
  allowed_formats : list string
}.

Inductive upload_error :=
  | UnsupportedFormatError
  | UploadError
  | LIMIT_UNEXPECTED_FILE.

(** What the storage engine leaves in [req.file]. *)
Record uploaded := Uploaded {
  path : string;
  filename : string
}.

(** Modelled from the spec: the upload itself.  [server.js] only hands the
    two constants [folder] and [allowed_formats] to [new CloudinaryStorage]
    (lines 40-46); the storage engine's [_handleFile] and the remote upload
    API that enforce them are not part of the source.  Following section 4.3
    of the spec: a file is accepted only if its format is on the allow-list,
    anything else is rejected with UnsupportedFormatError, an accepted file
    is kept in the fixed folder and gets a URL, and the call fails with
    UploadError when the remote service is unreachable or refuses the
    credentials. *)
Definition upload (w : world) (ps : params) (f : file) (held : list asset)
  : upload_error + (list asset * uploaded) :=
  if negb (cloudinary_up w) then inl UploadError
  else if existsb (String.eqb (format f)) (allowed_formats ps) then
    inr ({| asset_folder := folder ps; asset_id := public_id w;
            asset_format := format f |} :: held,
         {| path := secure_url w; filename := public_id w |})
  else inl UnsupportedFormatError.

(** The storage engine's [_removeFile], run for the files already taken when
    a request is aborted. *)
Definition destroy (u : option uploaded) (held : list asset) : list asset :=
  match u with
  | None => held
  | Some u => filter (fun a => asset_id a ≠ filename u) held
  end.

(** [upload.single(field)] over the parts of a multipart body, in order.
    Text fields and file parts without a file name are passed over.  A file
    part is taken only under [field] and only once; any other file part
    aborts the request with LIMIT_UNEXPECTED_FILE. *)
Fixpoint receive (w : world) (ps : params) (field : string) (parts : list part)
    (held : list asset) (taken : option uploaded)
  : list asset * (upload_error + option uploaded) :=
  match parts with
  | [] => (held, inr taken)
  | Field _ _ :: rest => receive w ps field rest held taken
  | FilePart f :: rest =>
      if String.eqb (originalname f) "" then receive w ps field rest held taken
      else if negb (String.eqb (fieldname f) field) || bool_decide (is_Some taken)
      then (destroy taken held, inl LIMIT_UNEXPECTED_FILE)
      else match upload w ps f held with
           | inl e => (destroy taken held, inl e)
           | inr (held', u) => receive w ps field rest held' (Some u)
           end
  end.

(** The middleware: a request that is not multipart goes through untouched,
    with no [req.file]. *)
Definition single (w : world) (ps : params) (field : string)
    (form : option (list part)) (held : list asset)
  : list asset * (upload_error + option uploaded) :=
  match form with
  | None => (held, inr None)
  | Some parts => receive w ps field parts held None
  end.

(** The file parts the middleware looks at. *)
Definition attached (form : option (list part)) : list file :=
  match form with
  | None => []
  | Some parts =>
      omap (fun p => match p with
                     | FilePart f => if String.eqb (originalname f) "" then None else Some f
                     | Field _ _ => None
                     end) parts
  end.

End Upload.

(** ** [server.js] *)

Module Server.

Import Mongoose Upload.

(** Lines 40-46: the storage parameters. *)
Definition storage : params :=
  {| folder := "email-images";
     allowed_formats := ["jpg"; "png"; "jpeg"; "gif"] |}.

(** The two remote stores the process talks to. *)
Record state := State {
  templates : gmap ObjectId document;
  media : list asset
}.

(** What is sent as the body.  [ErrorPage] stands for the page Express
    itself sends when a middleware fails and no handler runs; the text of
    that page, which can name the error, is not modelled. *)
Inductive payload :=
  | Template (doc : document)
  | Templates (docs : list document)
  | Error (error : string)
  | Message (message : string)
  | ImageUrl (imageUrl : string)
  | ErrorPage.

Record response := Response {
  status : N;
  body : payload
}.

(** [res.status(code).json(x)], and [res.json(x)] with the default 200.  A
    document is serialised through its [toJSON]. *)
Definition json (code : N) (x : payload) : response :=
  {| status := code;
     body := match x with
             | Template d => Template (toJSON d)
             | Templates ds => Templates (toJSON <$> ds)
             | _ => x
             end |}.

(** Lines 67-78: [app.post('/api/email-templates')]. *)
Definition post_email_templates (w : world) (req_body : value) (st : state)
  : state * response :=
  let title := prop "title" req_body in
  let sections := prop "sections" req_body in
  let newTemplate := EmailTemplate w title sections in
  match save w newTemplate (templates st) with
  | inr (coll, savedTemplate) =>
      ({| templates := coll; media := media st |},
       json 201 (Template savedTemplate))
  | inl _ =>
      (st, json 500 (Error "Failed to create email template."))
  end.

(** Lines 81-89: [app.get('/api/email-templates')]. *)
Definition get_email_templates (w : world) (st : state) : state * response :=
  match find w (templates st) with
  | inr docs => (st, json 200 (Templates docs))
  | inl _ => (st, json 500 (Error "Failed to fetch email templates."))
  end.

(** Lines 92-105: [app.get('/api/email-templates/:id')]. *)
Definition get_email_template (w : world) (id : string) (st : state)
  : state * response :=
  match findById w id (templates st) with
  | inr None => (st, json 404 (Error "Template not found."))
  | inr (Some template) => (st, json 200 (Template template))
  | inl _ => (st, json 500 (Error "Failed to fetch the email template."))
  end.

(** Lines 108-126: [app.put('/api/email-templates/:id')]. *)
Definition put_email_template (w : world) (id : string) (req_body : value)
    (st : state) : state * response :=
  let title := prop "title" req_body in
  let sections := prop "sections" req_body in
  match findByIdAndUpdate w id title sections (templates st) with
  | inr (coll, None) =>
      ({| templates := coll; media := media st |},
       json 404 (Error "Template not found."))
  | inr (coll, Some updatedTemplate) =>
      ({| templates := coll; media := media st |},
       json 200 (Template updatedTemplate))
  | inl _ =>
      (st, json 500 (Error "Failed to update the email template."))
  end.

(** Lines 129-142: [app.delete('/api/email-templates/:id')]. *)
Definition delete_email_template (w : world) (id : string) (st : state)
  : state * response :=
  match findByIdAndDelete w id (templates st) with
  | inr (coll, None) =>
      ({| templates := coll; media := media st |},
       json 404 (Error "Template not found."))
  | inr (coll, Some _) =>
      ({| templates := coll; media := media st |},
       json 200 (Message "Template deleted successfully."))
  | inl _ =>
      (st, json 500 (Error "Failed to delete the email template."))
  end.

(** Lines 145-150: [app.post('/api/upload-image', upload.single('image'), ...)].
    An error raised by the middleware never reaches the handler: Express
    answers it with its own 500 page. *)
Definition post_upload_image (w : world) (form : option (list part)) (st : state)
  : state * response :=
  match single w storage "image" form (media st) with
  | (held, inl _) =>
      ({| templates := templates st; media := held |},
       {| status := 500; body := ErrorPage |})
  | (held, inr req_file) =>
      let st' := {| templates := templates st; media := held |} in
      match req_file with
      | None => (st', json 400 (Error "No image uploaded."))
      | Some f => (st', json 200 (ImageUrl (path f)))
      end
  end.

(** The routes. *)
Inductive request :=
  | POST_email_templates (req_body : value)
  | GET_email_templates
  | GET_email_template (id : string)
  | PUT_email_template (id : string) (req_body : value)
  | DELETE_email_template (id : string)
  | POST_upload_image (form : option (list part)).

Definition handle (w : world) (req : request) (st : state) : state * response :=
  match req with
  | POST_email_templates b => post_email_templates w b st
  | GET_email_templates => get_email_templates w st
  | GET_email_template id => get_email_template w id st
  | PUT_email_template id b => put_email_template w id b st
  | DELETE_email_template id => delete_email_template w id st
  | POST_upload_image form => post_upload_image w form st
  end.

(** The two answers that several routes share. *)
Definition not_found : response :=
  {| status := 404; body := Error "Template not found." |}.

Definition create_failed : response :=
  {| status := 500; body := Error "Failed to create email template." |}.

End Server.

(** ** The two [cors] middlewares (lines 15-24) *)

Module Cors.

(** The options of the [cors] package that [server.js] sets.  An [origin]
    that is not given is [None]. *)
Record options := Options {
  origin : option string;
  methods : list string;
  credentials : bool
}.

(** The package defaults, used by [cors()] on line 16. *)
Definition defaults : options :=
  {| origin := None;
     methods := ["GET"; "HEAD"; "PUT"; "PATCH"; "POST"; "DELETE"];
     credentials := false |}.

(** Lines 19-23. *)
Definition corsOptions : options :=
  {| origin := Some "https://emailbuilder-frontend.vercel.app";
     methods := ["GET"; "POST"; "PUT"; "DELETE"];
     credentials := true |}.

(** The response headers the package writes.  [setHeader] replaces a value
    already there; [Vary] collects field names. *)
Record headers := Headers {
  allow_origin : option string;
  allow_credentials : option string;
  allow_methods : option string;
  allow_headers : option string;
  vary : list string
}.

Definition no_headers : headers :=
  {| allow_origin := None; allow_credentials := None; allow_methods := None;
     allow_headers := None; vary := [] |}.

Definition vary_on (field : string) (h : headers) : headers :=
  {| allow_origin := allow_origin h; allow_credentials := allow_credentials h;
     allow_methods := allow_methods h; allow_headers := allow_headers h;
     vary := if existsb (String.eqb field) (vary h) then vary h
             else vary h ++ [field] |}.

(** [configureOrigin] for an origin that is absent, ['*'] or a fixed
    string (the forms [server.js] uses). *)
Definition configureOrigin (o : options) (h : headers) : headers :=
  let fixed := match origin o with
               | None => None
               | Some s => if String.eqb s "" || String.eqb s "*" then None else Some s
               end in
  match fixed with
  | None =>
      {| allow_origin := Some "*"; allow_credentials := allow_credentials h;
         allow_methods := allow_methods h; allow_headers := allow_headers h;
         vary := vary h |}
  | Some s =>
      vary_on "Origin"
        {| allow_origin := Some s; allow_credentials := allow_credentials h;
           allow_methods := allow_methods h; allow_headers := allow_headers h;
           vary := vary h |}
  end.

Definition configureCredentials (o : options) (h : headers) : headers :=
  if credentials o then
    {| allow_origin := allow_origin h; allow_credentials := Some "true";
       allow_methods := allow_methods h; allow_headers := allow_headers h;
       vary := vary h |}
  else h.

Fixpoint join (sep : string) (l : list string) : string :=
  match l with
  | [] => ""
  | [x] => x
  | x :: rest => x ++ sep ++ join sep rest
  end.

Definition configureMethods (o : options) (h : headers) : headers :=
  {| allow_origin := allow_origin h; allow_credentials := allow_credentials h;
     allow_methods := Some (join "," (methods o)); allow_headers := allow_headers h;
     vary := vary h |}.

(** No [allowedHeaders] option is set, so the headers the browser asks for
    ([Access-Control-Request-Headers]) are allowed back. *)
Definition configureAllowedHeaders (requested : option string) (h : headers) : headers :=
  let h' := vary_on "Access-Control-Request-Headers" h in
  match requested with
  | Some s =>
      if String.eqb s "" then h'
      else {| allow_origin := allow_origin h'; allow_credentials := allow_credentials h';
              allow_methods := allow_methods h'; allow_headers := Some s;
              vary := vary h' |}
  | None => h'
  end.

Inductive outcome :=
  | Ended (code : N)
  | Next.

(** The middleware: an OPTIONS request is a preflight and is answered on the
    spot with 204 ([preflightContinue] is off); any other request gets its
    headers and goes on. *)
Definition cors (o : options) (method : string) (requested : option string)
    (h : headers) : headers * outcome :=
  if String.eqb method "OPTIONS" then
    (configureAllowedHeaders requested
       (configureMethods o (configureCredentials o (configureOrigin o h))),
     Ended 204)
  else
    (configureCredentials o (configureOrigin o h), Next).

End Cors.

(** ** The application: middlewares, then routes *)

Module App.

Import Mongoose Upload Server Cors.

(** What reaches the application: a preflight, or a request for one of the
    six routes. *)
Inductive incoming :=
  | OPTIONS (requested_headers : option string)
  | Routed (req : request).

Definition method (i : incoming) : string :=
  match i with
  | OPTIONS _ => "OPTIONS"
  | Routed (POST_email_templates _) => "POST"
  | Routed GET_email_templates => "GET"
  | Routed (GET_email_template _) => "GET"
  | Routed (PUT_email_template _ _) => "PUT"
  | Routed (DELETE_email_template _) => "DELETE"
  | Routed (POST_upload_image _) => "POST"
  end.

Definition requested (i : incoming) : option string :=
  match i with
  | OPTIONS r => r
  | Routed _ => None
  end.

Record reply := Reply {
  reply_status : N;
  reply_headers : headers;
  reply_body : option payload
}.

(** Lines 16, 24 and then the routes, in the order they are registered.  A
    request no middleware and no route answers gets Express's 404 page. *)
Definition serve (w : world) (i : incoming) (st : state) : state * reply :=
  match cors defaults (method i) (requested i) no_headers with
  | (h, Ended code) =>
      (st, {| reply_status := code; reply_headers := h; reply_body := None |})
  | (h, Next) =>
      match cors corsOptions (method i) (requested i) h with
      | (h', Ended code) =>
          (st, {| reply_status := code; reply_headers := h'; reply_body := None |})
      | (h', Next) =>
          match i with
          | Routed req =>
              let '(st', res) := handle w req st in
              (st', {| reply_status := status res; reply_headers := h';
                       reply_body := Some (body res) |})
          | OPTIONS _ =>
              (st, {| reply_status := 404; reply_headers := h';
                      reply_body := Some ErrorPage |})
          end
      end
  end.

(** The state after a sequence of requests, each in its own world. *)
Fixpoint run (trace : list (world * incoming)) (st : state) : state :=
  match trace with
  | [] => st
  | (w, i) :: rest => run rest (serve w i st).1
  end.

(** Every template is stored under the id it carries, and that id is a
    12-byte value. *)
Definition well_keyed (st : state) : Prop :=
  forall oid d, templates st !! oid = Some d -> _id d = oid /\ (oid < 16 ^ 24)%N.

(** Every asset on the media host is one the storage parameters allow. *)
Definition well_filed (st : state) : Prop :=
  forall a, In a (media st) ->
    asset_folder a = folder storage /\ In (asset_format a) (allowed_formats storage).

(** Notions used to state properties of the application. *)

Definition is_upload (req : request) : bool :=
  match req with
  | POST_upload_image _ => true
  | _ => false
  end.

Definition update_failed : response :=
  {| status := 500; body := Error "Failed to update the email template." |}.

Definition delete_failed : response :=
  {| status := 500; body := Error "Failed to delete the email template." |}.

(** What [receive] does, told on the named files alone. *)
Fixpoint receive_files (w : world) (ps : params) (field : string) (files : list file)
    (held : list asset) (taken : option uploaded)
  : list asset * (upload_error + option uploaded) :=
  match files with
  | [] => (held, inr taken)
  | f :: rest =>
      if negb (String.eqb (fieldname f) field) || bool_decide (is_Some taken)
      then (destroy taken held, inl LIMIT_UNEXPECTED_FILE)
      else match upload w ps f held with
           | inl e => (destroy taken held, inl e)
           | inr (held', u) => receive_files w ps field rest held' (Some u)
           end
  end.

Definition preflight_headers (requested_headers : option string) : headers :=
  {| allow_origin := Some "*";
     allow_credentials := None;
     allow_methods := Some "GET,HEAD,PUT,PATCH,POST,DELETE";
     allow_headers := match requested_headers with
                      | Some s => if String.eqb s "" then None else Some s
                      | None => None
                      end;
     vary := ["Access-Control-Request-Headers"] |}.

Definition routed_headers : headers :=
  {| allow_origin := Some "https://emailbuilder-frontend.vercel.app";
     allow_credentials := Some "true";
     allow_methods := None;
     allow_headers := None;
     vary := ["Origin"] |}.

Definition with_store_up (w : world) : world :=
  {| now := now w; entropy := entropy w; mongo_up := true;
     cloudinary_up := cloudinary_up w; public_id := public_id w;
     secure_url := secure_url w |}.

(** The body a handler sends with a given error status. *)
Definition error_body (req : request) (code : N) : payload :=
  match req, code with
  | POST_upload_image _, _ => Error "No image uploaded."
  | _, 404%N => Error "Template not found."
  | POST_email_templates _, _ => Error "Failed to create email template."
  | GET_email_templates, _ => Error "Failed to fetch email templates."
  | GET_email_template _, _ => Error "Failed to fetch the email template."
  | PUT_email_template _ _, _ => Error "Failed to update the email template."
  | DELETE_email_template _, _ => Error "Failed to delete the email template."
  end.

End App.

(** ** Plain section data *)

Module Plain.

Import Mongoose Server.

(** The libraries between a handler and the store look at some property
    names of the objects they pass along (an own [constructor], [_bsontype],
    [toBSON], [$__], [isMongooseArray], ...) and take other paths for them
    than the ones [Mongoose.clone], [Mongoose.save] and
    [Mongoose.findByIdAndUpdate] describe.  Those definitions are meant for
    plain values: nested no deeper than [max_depth], every number finite,
    no property name twice in one object, every property name a letter
    followed by letters and digits and none of [reserved_names]. *)
Definition max_depth : nat := 64.

Definition reserved_names : list string :=
  ["constructor"; "prototype"; "hasOwnProperty"; "isPrototypeOf";
   "propertyIsEnumerable"; "toLocaleString"; "toString"; "valueOf"; "toJSON";
   "toBSON"; "toObject"; "then"; "length"; "isMongooseArray";
   "isMongooseArrayProxy"; "isMongooseBuffer"; "isMongooseDocumentArray";
   "isMongooseDocumentArrayProxy"; "instanceOfSchema"].

Definition is_letter (c : ascii) : bool :=
  let n := N_of_ascii c in
  ((65 <=? n)%N && (n <=? 90)%N) || ((97 <=? n)%N && (n <=? 122)%N).

Definition is_digit (c : ascii) : bool :=
  let n := N_of_ascii c in (48 <=? n)%N && (n <=? 57)%N.

Fixpoint letters_and_digits (s : string) : bool :=
  match s with
  | EmptyString => true
  | String c rest => (is_letter c || is_digit c) && letters_and_digits rest
  end.

Definition plain_name (k : string) : bool :=
  match k with
  | EmptyString => false
  | String c rest => is_letter c && letters_and_digits rest
  end
  && negb (existsb (String.eqb k) reserved_names).

Definition finite (repr : string) : bool :=
  negb (String.eqb repr "Infinity" || String.eqb repr "-Infinity"
        || String.eqb repr "NaN").

Fixpoint distinct (names : list string) : bool :=
  match names with
  | [] => true
  | k :: rest => negb (existsb (String.eqb k) rest) && distinct rest
  end.

(** A parsed object has each property name once. *)
Definition distinct_names (v : value) : bool :=
  match v with
  | Obj props => distinct (map fst props)
  | _ => true
  end.

Fixpoint plain (depth : nat) (v : value) : bool :=
  match depth with
  | O => false
  | S depth' =>
      match v with
      | Num repr => finite repr
      | Arr items => forallb (plain depth') items
      | Obj props =>
          distinct (map fst props)
          && forallb (fun kv => plain_name kv.1 && plain depth' kv.2) props
      | _ => true
      end
  end.

Definition plain_sections (secs : list value) : bool :=
  forallb (plain max_depth) secs.

(** An update body as the spec gives it: no property name twice, [title]
    left out or a string, [sections] left out or an array of plain values. *)
Definition plain_update (req_body : value) : bool :=
  distinct_names req_body
  && match prop "title" req_body with
     | None | Some (Str _) => true
     | _ => false
     end
  && match prop "sections" req_body with
     | None => true
     | Some (Arr secs) => plain_sections secs
     | _ => false
     end.

Definition plain_document (d : document) : bool :=
  match sections d with
  | Some secs => plain_sections secs
  | None => true
  end.

(** Every stored template holds plain sections. *)
Definition plain_state (st : state) : Prop :=
  forall oid d, templates st !! oid = Some d -> plain_document d = true.

(** A request whose body, if it has one, is a plain update body. *)
Definition plain_request (req : request) : bool :=
  match req with
  | POST_email_templates req_body => plain_update req_body
  | PUT_email_template _ req_body => plain_update req_body
  | _ => true
  end.

End Plain.

(** ** Sample requests and states *)

Module Samples.

Import Mongoose Upload Server.

Definition sample_world : world :=
  {| now := 1700000000000; entropy := 255; mongo_up := true; cloudinary_up := true;
     public_id := "email-images/q8d2k1";
     secure_url := "https://res.cloudinary.com/demo/image/upload/v1/email-images/q8d2k1.png" |}.

Definition empty_state : state := {| templates := ∅; media := [] |}.

Definition text_section : value := Obj [("type", Str "text"); ("value", Str "Hi")].

Definition styled_section : value := Obj [("type", Str "text"); ("style", Obj [])].

Definition welcome : value :=
  Obj [("title", Str "Welcome"); ("sections", Arr [text_section])].


Definition stored_welcome : document :=
  {| _id := 255%N; title := Some "Welcome"; sections := Some [text_section];
     createdAt := 1700000000000; updatedAt := 1700000000000; __v := 0 |}.

Definition one_template : state :=
  {| templates := {[ 255%N := stored_welcome ]}; media := [] |}.

Definition stored_styled : document :=
  {| _id := 255%N; title := Some "Welcome"; sections := Some [styled_section];
     createdAt := 1700000000000; updatedAt := 1700000000000; __v := 0 |}.

End Samples.

(** * Properties *)

(** ** The minimizing copy *)

Module CloneFacts.

Import Mongoose.

Lemma clone_Arr b items : clone b (Arr items) = Some (Arr (cloneArray items)).
Proof.
  reflexivity.
Qed.

Lemma clone_Obj b props :
  clone b (Obj props) =
  if b then Some (Obj (cloneObject props))
  else match cloneObject props with
       | [] => None
       | _ => Some (Obj (cloneObject props))
       end.
Proof.
  destruct b; reflexivity.
Qed.

Lemma minimal_Arr b items :
  minimal b (Arr items) = forallb (minimal true) items.
Proof.
  cbn [minimal].
  induction items as [|x items IH]; [reflexivity|].
  cbn [forallb]. rewrite <- IH. reflexivity.
Qed.

Lemma minimal_Obj b props :
  minimal b (Obj props) =
  (b || match props with [] => false | _ => true end)
  && forallb (fun kv => negb (specialProperties kv.1) && minimal false kv.2) props.
Proof.
  cbn [minimal]. f_equal.
  induction props as [|[k v] props IH]; [reflexivity|].
  cbn [forallb fst snd]. rewrite <- IH. reflexivity.
Qed.

(** An array element is never lost by the copy. *)
Lemma clone_arrayChild_defined v : is_Some (clone true v).
Proof.
  destruct v; eexists; reflexivity.
Qed.


(** Copying a copy changes nothing. *)
Lemma clone_idempotent v : forall b v', clone b v = Some v' -> clone b v' = Some v'.
Proof.
  induction v as [ |b0|r|s|items IH|props IH] using value_ind; intros b v' Hc;
    try (cbn in Hc; injection Hc as <-; reflexivity).
  - rewrite clone_Arr in Hc. injection Hc as <-.
    rewrite clone_Arr. do 2 f_equal.
    induction IH as [|x items Hx _ IHitems]; [reflexivity|].
    cbn [cloneArray map]. f_equal; [|exact IHitems].
    destruct (clone true x) as [y|] eqn:Hy; cbn.
    + rewrite (Hx true y Hy). reflexivity.
    + reflexivity.
  - rewrite clone_Obj in Hc.
    assert (Hfix : cloneObject (cloneObject props) = cloneObject props).
    { clear Hc. induction IH as [|[k x] props Hx _ IHprops]; [reflexivity|].
      cbn [cloneObject]. destruct (specialProperties k) eqn:Hk; [exact IHprops|].
      cbn [snd] in Hx.
      destruct (clone false x) as [y|] eqn:Hy; [|exact IHprops].
      cbn [cloneObject]. rewrite Hk, (Hx false y Hy). f_equal. exact IHprops. }
    destruct b.
    + injection Hc as <-. rewrite clone_Obj, Hfix. reflexivity.
    + destruct (cloneObject props) as [|kv ret] eqn:Hret; [discriminate|].
      injection Hc as <-. rewrite clone_Obj, Hfix. reflexivity.
Qed.

Lemma cloneArray_idempotent items : cloneArray (cloneArray items) = cloneArray items.
Proof.
  pose proof (clone_idempotent (Arr items) false _ (clone_Arr false items)) as H.
  rewrite clone_Arr in H. congruence.
Qed.


(** The copy keeps the number and the order of the sections. *)
Lemma cloneArray_length items : length (cloneArray items) = length items.
Proof. apply length_map. Qed.

Lemma cloneArray_lookup items i :
  cloneArray items !! i = (fun x => default Null (clone true x)) <$> items !! i.
Proof. apply list_lookup_fmap. Qed.

Lemma toJSON_idempotent d : toJSON (toJSON d) = toJSON d.
Proof.
  destruct d as [i t [secs|] c u v]; unfold toJSON; cbn -[cloneArray]; [|reflexivity].
  rewrite cloneArray_idempotent. reflexivity.
Qed.

End CloneFacts.

(** ** ObjectIds and their hexadecimal form *)

Module ObjectIdFacts.

Import Mongoose.

Lemma hexval_hexchar d : (d < 16)%N -> hexval (hexchar d) = Some d.
Proof.
  intros Hd. rewrite <- (N2Nat.id d).
  assert (Hk : (N.to_nat d < 16)%nat) by lia.
  destruct (N.to_nat d) as [|k]; [reflexivity|].
  do 15 (destruct k as [|k]; [reflexivity|]). lia.
Qed.

Lemma hex_digits_length k : forall n tail,
  String.length (hex_digits k n tail) = (k + String.length tail)%nat.
Proof.
  induction k as [|k IH]; intros n tail; [reflexivity|].
  cbn [hex_digits]. rewrite IH. cbn [String.length]. lia.
Qed.

(** Reading back [k] printed digits yields the [k] low digits of the number. *)
Lemma parse_hex_digits k : forall n acc tail,
  parse_hex acc (hex_digits k n tail)
  = parse_hex (acc * 16 ^ N.of_nat k + n mod 16 ^ N.of_nat k)%N tail.
Proof.
  induction k as [|k IH]; intros n acc tail.
  - cbn [hex_digits]. f_equal. cbn. rewrite N.mod_1_r. lia.
  - cbn [hex_digits]. rewrite IH. cbn [parse_hex].
    rewrite hexval_hexchar by (apply N.mod_lt; lia).
    f_equal. rewrite Nat2N.inj_succ, N.pow_succ_r'.
    rewrite (N.Div0.mod_mul_r n 16 (16 ^ N.of_nat k)). lia.
Qed.

Lemma castObjectId_toHexString oid :
  (oid < 16 ^ 24)%N -> castObjectId (toHexString oid) = Some oid.
Proof.
  intros Hlt. unfold castObjectId, toHexString.
  rewrite hex_digits_length. cbn [String.length Nat.add Nat.eqb].
  rewrite parse_hex_digits. cbn [parse_hex].
  change (N.of_nat 24) with 24%N.
  rewrite N.mod_small by exact Hlt. f_equal.
Qed.

Lemma new_ObjectId_range w : (new_ObjectId w < 16 ^ 24)%N.
Proof. unfold new_ObjectId. apply N.mod_lt. discriminate. Qed.

(** The id found in a created document's JSON leads back to that document's
    key. *)
Lemma castObjectId_new w : castObjectId (toHexString (new_ObjectId w)) = Some (new_ObjectId w).
Proof. apply castObjectId_toHexString, new_ObjectId_range. Qed.

(** Only strings of 24 characters cast. *)
Lemma castObjectId_length id oid : castObjectId id = Some oid -> String.length id = 24%nat.
Proof.
  unfold castObjectId. destruct (Nat.eqb (String.length id) 24) eqn:E; [|discriminate].
  intros _. apply Nat.eqb_eq. exact E.
Qed.

End ObjectIdFacts.

(** ** Plain update bodies *)

Module PlainFacts.

Import Mongoose Server Plain.

(** The casts of a plain update body succeed. *)
Lemma plain_update_casts req_body :
  plain_update req_body = true ->
  exists u, castUpdate (prop "title" req_body) (prop "sections" req_body) = Casted u.
Proof.
  unfold plain_update, castUpdate. intros Hplain.
  apply andb_prop in Hplain as [Hplain _]. apply andb_prop in Hplain as [_ Htitle].
  destruct (prop "title" req_body) as [[ | | | | | ]|]; try discriminate Htitle;
    cbn [castString]; eauto.
Qed.

End PlainFacts.

(** ** The routes *)

Module Routes.

Import Mongoose Upload Server Plain Samples CloneFacts ObjectIdFacts PlainFacts.


Lemma state_eta (st : state) : {| templates := templates st; media := media st |} = st.
Proof. destruct st; reflexivity. Qed.











(** C4: for every id of a stored template, with the store reachable, delete
    answers 200 with the message "Template deleted successfully.", and a
    following getById of the same id answers 404. *)
Theorem delete_then_get (w w' : world) (id : string) (oid : ObjectId)
    (d : document) (st : state) :
  mongo_up w = true ->
  mongo_up w' = true ->
  castObjectId id = Some oid ->
  templates st !! oid = Some d ->
  exists st',
    delete_email_template w id st
    = (st', {| status := 200; body := Message "Template deleted successfully." |})
    /\ templates st' = delete oid (templates st)
    /\ get_email_template w' id st' = (st', not_found).
Proof.
  intros Hup Hup' Hid Hd.
  unfold delete_email_template, findByIdAndDelete.
  rewrite Hid, Hup, Hd. cbn [negb].
  eexists. split; [reflexivity|]. split; [reflexivity|].
  unfold get_email_template, findById. cbn [templates].
  rewrite Hid, Hup', lookup_delete_eq. reflexivity.
Qed.

Lemma delete_then_get_witness :
  exists st',
    delete_email_template sample_world (toHexString 255%N) one_template
    = (st', {| status := 200; body := Message "Template deleted successfully." |})
    /\ templates st' = delete 255%N (templates one_template)
    /\ get_email_template sample_world (toHexString 255%N) st' = (st', not_found).
Proof.
  apply (delete_then_get sample_world sample_world (toHexString 255%N) 255%N
           stored_welcome one_template); reflexivity.
Defined.



(** C6, as stated, fails: a form whose only file sits under the field
    [photo] has no file under [image], yet the answer is not 400: the
    middleware aborts the request with LIMIT_UNEXPECTED_FILE, the handler
    never runs, and Express answers 500. *)
Lemma file_under_other_field_answers_500 :
  let form := Some [FilePart {| fieldname := "photo"; originalname := "logo.png";
                                format := "png" |}] in
  filter (fun f => fieldname f = "image") (attached form) = []
  /\ post_upload_image sample_world form empty_state
     = (empty_state, {| status := 500; body := ErrorPage |}).
Proof. split; vm_compute; reflexivity. Qed.

(** Text fields and unnamed file parts do not matter to the middleware. *)
Lemma receive_nothing_attached w ps field parts held taken :
  attached (Some parts) = [] ->
  receive w ps field parts held taken = (held, inr taken).
Proof.
  induction parts as [|[name val|f] parts IH]; intros Hnone.
  - reflexivity.
  - cbn [receive]. apply IH. exact Hnone.
  - cbn [receive]. cbn [attached omap list_omap] in Hnone |- *.
    destruct (String.eqb (originalname f) ""); [apply IH; exact Hnone | discriminate Hnone].
Qed.

Lemma receive_one_attached w ps parts held f :
  attached (Some parts) = [f] ->
  fieldname f = "image" ->
  receive w ps "image" parts held None
  = match upload w ps f held with
    | inl e => (held, inl e)
    | inr (held', u) => (held', inr (Some u))
    end.
Proof.
  intros Hone Hfield.
  induction parts as [|[name val|g] parts IH].
  - discriminate Hone.
  - cbn [receive]. apply IH. exact Hone.
  - cbn [receive]. cbn [attached omap list_omap] in Hone.
    destruct (String.eqb (originalname g) "") eqn:Hname; [apply IH; exact Hone|].
    injection Hone as -> Hrest.
    rewrite Hfield. cbn [String.eqb Ascii.eqb Bool.eqb negb orb].
    rewrite bool_decide_eq_false_2 by (intros [? ?]; discriminate).
    cbn [destroy].
    destruct (upload w ps f held) as [e|[held' u]]; [reflexivity|].
    apply receive_nothing_attached. exact Hrest.
Qed.

(** C6 (amended): POST /api/upload-image answers 400 with "No image
    uploaded." when the request carries no file at all (it is not multipart,
    or none of its parts is a named file), and then changes neither the
    template store nor the media host.  When the only file of the form sits
    under [image] and its upload succeeds, the answer is 200 with the URL
    the host gave as [imageUrl]. *)
Theorem upload_image_answers (w : world) (form : option (list part)) (st : state) :
  (attached form = [] ->
   post_upload_image w form st
   = (st, {| status := 400; body := Error "No image uploaded." |}))
  /\ (forall f held u,
        attached form = [f] ->
        fieldname f = "image" ->
        upload w storage f (media st) = inr (held, u) ->
        post_upload_image w form st
        = ({| templates := templates st; media := held |},
           {| status := 200; body := ImageUrl (path u) |})).
Proof.
  split.
  - intros Hnone. unfold post_upload_image, single.
    destruct form as [parts|].
    + rewrite (receive_nothing_attached _ _ _ _ _ _ Hnone). rewrite state_eta. reflexivity.
    + rewrite state_eta. reflexivity.
  - intros f held u Hone Hfield Hupload. unfold post_upload_image, single.
    destruct form as [parts|]; [|discriminate Hone].
    rewrite (receive_one_attached _ _ _ _ _ Hone Hfield), Hupload. reflexivity.
Qed.

Example upload_image_no_file :
  post_upload_image sample_world (Some [Field "caption" "logo"]) one_template
  = (one_template, {| status := 400; body := Error "No image uploaded." |}).
Proof. vm_compute. reflexivity. Qed.

Example upload_image_png :
  (post_upload_image sample_world
     (Some [Field "caption" "logo";
            FilePart {| fieldname := "image"; originalname := "logo.png";
                        format := "png" |}]) empty_state).2
  = {| status := 200; body := ImageUrl (secure_url sample_world) |}.
Proof. vm_compute. reflexivity. Qed.

(** C7: the upload made with the storage parameters of [server.js]
    (folder "email-images", formats jpg, png, jpeg, gif) accepts a file of one
    of the four formats whenever the host answers, and keeps it in
    "email-images" under the name and URL the host gives; it accepts no file
    of any other format, and the host that answers refuses such a file with
    UnsupportedFormatError. *)
Theorem upload_allow_list (w : world) (f : file) (held : list asset) :
  (In (format f) ["jpg"; "png"; "jpeg"; "gif"] ->
   cloudinary_up w = true ->
   upload w storage f held
   = inr ({| asset_folder := "email-images"; asset_id := public_id w;
             asset_format := format f |} :: held,
          {| path := secure_url w; filename := public_id w |}))
  /\ (forall held' u,
        upload w storage f held = inr (held', u) ->
        In (format f) ["jpg"; "png"; "jpeg"; "gif"]
        /\ held' = {| asset_folder := "email-images"; asset_id := public_id w;
                      asset_format := format f |} :: held)
  /\ (~ In (format f) ["jpg"; "png"; "jpeg"; "gif"] ->
      (exists e, upload w storage f held = inl e)
      /\ (cloudinary_up w = true ->
          upload w storage f held = inl UnsupportedFormatError)).
Proof.
  unfold upload. cbn [storage allowed_formats folder].
  destruct (existsb (String.eqb (format f)) _) eqn:Hallowed.
  - apply existsb_exists in Hallowed as (x & Hin & Heq).
    apply String.eqb_eq in Heq. subst x.
    split; [intros _ ->; reflexivity|].
    split.
    + intros held' u H. destruct (cloudinary_up w); cbn [negb] in H; [|discriminate].
      injection H as <- <-. split; [exact Hin | reflexivity].
    + intros Hnot. contradiction.
  - assert (Hnot : ~ In (format f) ["jpg"; "png"; "jpeg"; "gif"]).
    { intros Hin.
      assert (existsb (String.eqb (format f)) ["jpg"; "png"; "jpeg"; "gif"] = true) as Hc.
      { apply existsb_exists. exists (format f). split; [exact Hin | apply String.eqb_refl]. }
      congruence. }
    split; [intros Hin; contradiction|].
    split.
    + intros held' u H. destruct (cloudinary_up w); discriminate H.
    + intros _. split.
      * destruct (cloudinary_up w); eexists; reflexivity.
      * intros ->. reflexivity.
Qed.

Lemma upload_allow_list_witness :
  upload sample_world storage
    {| fieldname := "image"; originalname := "logo.png"; format := "png" |} []
  = inr ([{| asset_folder := "email-images"; asset_id := public_id sample_world;
             asset_format := "png" |}],
         {| path := secure_url sample_world; filename := public_id sample_world |})
  /\ upload sample_world storage
       {| fieldname := "image"; originalname := "logo.svg"; format := "svg" |} []
     = inl UnsupportedFormatError.
Proof.
  split.
  - apply (upload_allow_list sample_world
             {| fieldname := "image"; originalname := "logo.png"; format := "png" |} []).
    + vm_compute. tauto.
    + reflexivity.
  - apply (upload_allow_list sample_world
             {| fieldname := "image"; originalname := "logo.svg"; format := "svg" |} []).
    + vm_compute. intros [H|[H|[H|[H|[]]]]]; discriminate H.
    + reflexivity.
Defined.

Example upload_rejects_svg :
  post_upload_image sample_world
    (Some [FilePart {| fieldname := "image"; originalname := "logo.svg";
                       format := "svg" |}]) empty_state
  = (empty_state, {| status := 500; body := ErrorPage |}).
Proof. vm_compute. reflexivity. Qed.

(** C8: when the body of a create request has no [sections], a create that
    is answered 201 returns a document whose sections are the empty array,
    and that document is the one stored under its id. *)
Theorem create_default_sections (w : world) (req_body : value) (st st' : state)
    (r : response) :
  prop "sections" req_body = None ->
  post_email_templates w req_body st = (st', r) ->
  status r = 201%N ->
  exists d,
    body r = Template d
    /\ sections d = Some []
    /\ templates st' !! _id d = Some d.
Proof.
  intros Hsecs Hpost Hstatus.
  unfold post_email_templates in Hpost. rewrite Hsecs in Hpost.
  destruct (save w _ (templates st)) as [e|[coll saved]] eqn:Hsave.
  - injection Hpost as <- <-. discriminate Hstatus.
  - injection Hpost as <- <-.
    unfold save in Hsave.
    destruct (validate _) as [t|]; [|discriminate].
    destruct (mongo_up w); [|discriminate]. cbn [negb] in Hsave.
    cbn [draft_id draft_sections EmailTemplate] in Hsave.
    destruct (templates st !! new_ObjectId w); [discriminate|].
    injection Hsave as <- <-.
    eexists. split; [reflexivity|]. split; [reflexivity|].
    cbn [templates _id toJSON]. apply lookup_insert_eq.
Qed.

Lemma create_default_sections_witness :
  exists d,
    body (post_email_templates sample_world (Obj [("title", Str "Draft")]) empty_state).2
    = Template d
    /\ sections d = Some []
    /\ templates (post_email_templates sample_world (Obj [("title", Str "Draft")])
                    empty_state).1 !! _id d = Some d.
Proof.
  apply (create_default_sections sample_world (Obj [("title", Str "Draft")])
           empty_state _ _).
  - reflexivity.
  - reflexivity.
  - reflexivity.
Defined.

(** C9: for every id of a stored template, whatever else the request and
    the world are, after PUT the template is still stored under that id, and
    a field the body leaves out ([title], [sections]) has the stored value
    it had before. *)
Theorem update_keeps_omitted_fields (w : world) (id : string) (oid : ObjectId)
    (req_body : value) (d : document) (st : state) :
  castObjectId id = Some oid ->
  templates st !! oid = Some d ->
  exists d',
    templates (put_email_template w id req_body st).1 !! oid = Some d'
    /\ (prop "title" req_body = None -> title d' = title d)
    /\ (prop "sections" req_body = None -> sections d' = sections d).
Proof.
  intros Hid Hd.
  unfold put_email_template, findByIdAndUpdate. rewrite Hid.
  destruct (castUpdate _ _) as [u|] eqn:Hcast; [|exists d; auto].
  destruct (mongo_up w); cbn [negb]; [|exists d; auto].
  rewrite Hd. cbn [fst templates].
  exists (applyUpdate w u d). split; [apply lookup_insert_eq|].
  unfold castUpdate in Hcast. split.
  - intros Htitle. rewrite Htitle in Hcast. injection Hcast as <-. reflexivity.
  - intros Hsecs. rewrite Hsecs in Hcast.
    destruct (prop "title" req_body) as [v|].
    + destruct (castString v); [|discriminate]. injection Hcast as <-. reflexivity.
    + injection Hcast as <-. reflexivity.
Qed.

Lemma update_keeps_omitted_fields_witness :
  exists d',
    templates (put_email_template sample_world (toHexString 255%N)
                 (Obj [("sections", Arr [])]) one_template).1 !! 255%N = Some d'
    /\ (prop "title" (Obj [("sections", Arr [])]) = None -> title d' = title stored_welcome)
    /\ (prop "sections" (Obj [("sections", Arr [])]) = None ->
        sections d' = sections stored_welcome).
Proof.
  apply (update_keeps_omitted_fields sample_world (toHexString 255%N) 255%N
           (Obj [("sections", Arr [])]) stored_welcome one_template); reflexivity.
Defined.

Example update_without_title :
  (put_email_template sample_world (toHexString 255%N)
     (Obj [("sections", Arr [])]) one_template).2
  = {| status := 200;
       body := Template {| _id := 255%N; title := Some "Welcome"; sections := Some [];
                           createdAt := 1700000000000; updatedAt := 1700000000000;
                           __v := 0 |} |}.
Proof. vm_compute. reflexivity. Qed.

(** C10: two create requests whose bodies agree on [title] and on
    [sections] are handled alike whatever other fields the bodies carry: in
    the same world and state they give the same state and the same answer,
    and in any two worlds and states where both are answered 201 the two
    documents agree on title, sections and version key (an [_id],
    [createdAt] or [updatedAt] sent by the client is not read). *)
Theorem create_reads_title_and_sections_only (b1 b2 : value) :
  prop "title" b1 = prop "title" b2 ->
  prop "sections" b1 = prop "sections" b2 ->
  (forall w st, post_email_templates w b1 st = post_email_templates w b2 st)
  /\ (forall w1 w2 st1 st2 d1 d2,
        (post_email_templates w1 b1 st1).2 = {| status := 201; body := Template d1 |} ->
        (post_email_templates w2 b2 st2).2 = {| status := 201; body := Template d2 |} ->
        title d1 = title d2 /\ sections d1 = sections d2 /\ __v d1 = __v d2
        /\ _id d1 = new_ObjectId w1 /\ _id d2 = new_ObjectId w2
        /\ createdAt d1 = now w1 /\ createdAt d2 = now w2).
Proof.
  intros Htitle Hsecs. split.
  - intros w st. unfold post_email_templates. rewrite Htitle, Hsecs. reflexivity.
  - intros w1 w2 st1 st2 d1 d2.
    unfold post_email_templates. rewrite Htitle, Hsecs.
    unfold save, EmailTemplate. cbn [draft_id draft_title draft_sections].
    unfold validate. cbn [draft_title].
    destruct (match prop "title" b2 with Some v => castString v | None => Casted None end)
      as [[t|]|]; try (cbn; discriminate).
    destruct (String.eqb t ""); [cbn; discriminate|].
    destruct (mongo_up w1); cbn [negb]; [|cbn; discriminate].
    destruct (mongo_up w2); cbn [negb]; [|intros _; cbn; discriminate].
    destruct (templates st1 !! new_ObjectId w1); [cbn; discriminate|].
    destruct (templates st2 !! new_ObjectId w2); [intros _; cbn; discriminate|].
    cbn [snd json]. intros H1 H2.
    injection H1 as <-. injection H2 as <-.
    repeat split; reflexivity.
Qed.

Lemma create_reads_title_and_sections_only_witness :
  post_email_templates sample_world welcome empty_state
  = post_email_templates sample_world
      (Obj [("_id", Str "000000000000000000000001"); ("title", Str "Welcome");
            ("createdAt", Num "0"); ("sections", Arr [text_section]);
            ("owner", Str "mallory")]) empty_state.
Proof.
  apply (create_reads_title_and_sections_only welcome
           (Obj [("_id", Str "000000000000000000000001"); ("title", Str "Welcome");
                 ("createdAt", Num "0"); ("sections", Arr [text_section]);
                 ("owner", Str "mallory")])); reflexivity.
Defined.

End Routes.

(** ** The application as a whole *)

Module Behaviour.

Import Mongoose Upload Server Cors App Plain Samples CloneFacts ObjectIdFacts PlainFacts.

(** *** What each writing route can do to the state *)

Lemma state_eta_ (st : state) : {| templates := templates st; media := media st |} = st.
Proof. destruct st; reflexivity. Qed.

Lemma post_cases w req_body st :
  post_email_templates w req_body st = (st, create_failed)
  \/ exists t secs,
       let doc := {| _id := new_ObjectId w; title := Some t; sections := secs;
                     createdAt := now w; updatedAt := now w; __v := 0 |} in
       mongo_up w = true
       /\ templates st !! new_ObjectId w = None
       /\ post_email_templates w req_body st
          = ({| templates := <[new_ObjectId w := toJSON doc]> (templates st);
                media := media st |},
             {| status := 201; body := Template (toJSON doc) |}).
Proof.
  unfold post_email_templates, save. cbn [draft_id EmailTemplate].
  destruct (validate _) as [t|]; [|left; reflexivity].
  destruct (mongo_up w); cbn [negb]; [|left; reflexivity].
  destruct (templates st !! new_ObjectId w) eqn:Hfree; [left; reflexivity|].
  right. eexists _, _. cbn zeta. repeat split; reflexivity.
Qed.

Lemma put_cases w id req_body st :
  put_email_template w id req_body st = (st, update_failed)
  \/ put_email_template w id req_body st = (st, not_found)
  \/ exists oid u d0,
       castObjectId id = Some oid
       /\ castUpdate (prop "title" req_body) (prop "sections" req_body) = Casted u
       /\ mongo_up w = true
       /\ templates st !! oid = Some d0
       /\ put_email_template w id req_body st
          = ({| templates := <[oid := applyUpdate w u d0]> (templates st);
                media := media st |},
             {| status := 200; body := Template (toJSON (applyUpdate w u d0)) |}).
Proof.
  unfold put_email_template, findByIdAndUpdate.
  destruct (castObjectId id) as [oid|]; [|left; reflexivity].
  destruct (castUpdate _ _) as [u|]; [|left; reflexivity].
  destruct (mongo_up w); cbn [negb]; [|left; reflexivity].
  destruct (templates st !! oid) as [d0|] eqn:Hd0.
  - right; right. exists oid, u, d0. repeat split; done.
  - right; left. rewrite state_eta_. reflexivity.
Qed.

Lemma delete_cases w id st :
  delete_email_template w id st = (st, delete_failed)
  \/ delete_email_template w id st = (st, not_found)
  \/ exists oid d0,
       castObjectId id = Some oid
       /\ mongo_up w = true
       /\ templates st !! oid = Some d0
       /\ delete_email_template w id st
          = ({| templates := delete oid (templates st); media := media st |},
             {| status := 200; body := Message "Template deleted successfully." |}).
Proof.
  unfold delete_email_template, findByIdAndDelete.
  destruct (castObjectId id) as [oid|]; [|left; reflexivity].
  destruct (mongo_up w); cbn [negb]; [|left; reflexivity].
  destruct (templates st !! oid) as [d0|] eqn:Hd0.
  - right; right. exists oid, d0. repeat split; done.
  - right; left. rewrite state_eta_. reflexivity.
Qed.

(** *** Listing *)

(** X1: GET /api/email-templates never changes the state.  With the store
    reachable it answers 200 with one document per stored template, each the
    JSON form of a stored one and every stored one among them; with the store
    unreachable it answers 500 with its generic message. *)
Theorem list_answers (w : world) (st : state) :
  (get_email_templates w st).1 = st
  /\ (mongo_up w = true ->
      exists docs,
        (get_email_templates w st).2 = {| status := 200; body := Templates docs |}
        /\ length docs = size (templates st)
        /\ forall d, d ∈ docs <->
             exists oid d0, templates st !! oid = Some d0 /\ d = toJSON d0)
  /\ (mongo_up w = false ->
      (get_email_templates w st).2
      = {| status := 500; body := Error "Failed to fetch email templates." |}).
Proof.
  unfold get_email_templates, find.
  destruct (mongo_up w); (split; [reflexivity|]); split; try discriminate;
    try reflexivity.
  intros _. eexists. split; [reflexivity|]. split.
  - rewrite !length_fmap. apply length_map_to_list.
  - intros d. rewrite list_elem_of_fmap. split.
    + intros (d0 & -> & Hin). apply list_elem_of_fmap in Hin as ([oid d1] & -> & Hin).
      apply elem_of_map_to_list in Hin. eauto.
    + intros (oid & d0 & Hd0 & ->). exists d0. split; [reflexivity|].
      apply list_elem_of_fmap. exists (oid, d0). split; [reflexivity|].
      apply elem_of_map_to_list. exact Hd0.
Qed.

(** X2: a template that create answered with 201 is among the documents of
    every later listing of the resulting state, exactly as create returned
    it. *)
Theorem created_is_listed (w w' : world) (req_body : value) (st st' : state)
    (d : document) :
  post_email_templates w req_body st
  = (st', {| status := 201; body := Template d |}) ->
  mongo_up w' = true ->
  exists docs,
    get_email_templates w' st' = (st', {| status := 200; body := Templates docs |})
    /\ d ∈ docs.
Proof.
  intros Hpost Hup.
  destruct (post_cases w req_body st) as [Hfail|(t & secs & _ & _ & Hok)].
  - rewrite Hfail in Hpost. discriminate Hpost.
  - cbn zeta in Hok. rewrite Hok in Hpost. injection Hpost as <- <-.
    unfold get_email_templates, find. rewrite Hup.
    eexists. split; [reflexivity|].
    cbn [templates]. apply list_elem_of_fmap.
    eexists. split; [symmetry; apply toJSON_idempotent|].
    apply list_elem_of_fmap. eexists (_, _). split; [reflexivity|].
    apply elem_of_map_to_list. apply lookup_insert_eq.
Qed.

Lemma created_is_listed_witness :
  exists docs,
    get_email_templates sample_world
      (post_email_templates sample_world welcome empty_state).1
    = ((post_email_templates sample_world welcome empty_state).1,
       {| status := 200; body := Templates docs |})
    /\ toJSON {| _id := 255%N; title := Some "Welcome"; sections := Some [text_section];
                 createdAt := 1700000000000; updatedAt := 1700000000000; __v := 0 |}
       ∈ docs.
Proof.
  apply (created_is_listed sample_world sample_world welcome empty_state).
  - reflexivity.
  - reflexivity.
Defined.

(** *** Frames *)

(** X3: create never replaces or removes a stored template, whatever the
    generated id is; it adds at most one. *)
Theorem create_keeps_stored (w : world) (req_body : value) (st : state) :
  (forall oid d, templates st !! oid = Some d ->
                 templates (post_email_templates w req_body st).1 !! oid = Some d)
  /\ (forall oid, oid <> new_ObjectId w ->
                  templates (post_email_templates w req_body st).1 !! oid
                  = templates st !! oid).
Proof.
  destruct (post_cases w req_body st) as [Hfail|(t & secs & _ & Hfree & Hok)].
  - rewrite Hfail. split; auto.
  - cbn zeta in Hok. rewrite Hok. cbn [fst templates]. split.
    + intros oid d Hd. rewrite lookup_insert_ne; [exact Hd|]. congruence.
    + intros oid Hne. apply lookup_insert_ne. congruence.
Qed.

(** X4: update never adds or removes a template (it does not upsert) and
    leaves every template other than the addressed one as it was. *)
Theorem update_touches_one (w : world) (id : string) (req_body : value) (st : state) :
  dom (templates (put_email_template w id req_body st).1) = dom (templates st)
  /\ (forall oid, castObjectId id <> Some oid ->
        templates (put_email_template w id req_body st).1 !! oid
        = templates st !! oid).
Proof.
  destruct (put_cases w id req_body st) as [H|[H|(oid & u & d0 & Hid & _ & _ & Hd0 & H)]];
    rewrite H; [split; auto..|].
  cbn [fst templates]. split.
  - apply dom_insert_lookup_L. eauto.
  - intros oid' Hne. apply lookup_insert_ne. congruence.
Qed.

(** X5: delete removes at most the addressed template and leaves every
    other one as it was. *)
Theorem delete_touches_one (w : world) (id : string) (st : state) :
  forall oid, castObjectId id <> Some oid ->
    templates (delete_email_template w id st).1 !! oid = templates st !! oid.
Proof.
  intros oid' Hne.
  destruct (delete_cases w id st) as [H|[H|(oid & d0 & Hid & _ & _ & H)]];
    rewrite H; [reflexivity..|].
  cbn [fst templates]. apply lookup_delete_ne. congruence.
Qed.

Lemma delete_touches_one_witness :
  templates (delete_email_template sample_world "507f1f77bcf86cd799439011"
               one_template).1 !! 255%N
  = templates one_template !! 255%N.
Proof.
  apply (delete_touches_one sample_world "507f1f77bcf86cd799439011" one_template 255%N).
  vm_compute. discriminate.
Defined.

(** X6: whatever the body, an update answered 200 returns the stored
    template's own [_id], [createdAt] and version key, with [updatedAt] set to
    the time of the request; the document returned is the JSON form of the
    one now stored under the id. *)
Theorem update_keeps_identity (w : world) (id : string) (oid : ObjectId)
    (req_body : value) (d0 d : document) (st st' : state) :
  castObjectId id = Some oid ->
  templates st !! oid = Some d0 ->
  put_email_template w id req_body st
  = (st', {| status := 200; body := Template d |}) ->
  _id d = _id d0 /\ createdAt d = createdAt d0 /\ __v d = __v d0
  /\ updatedAt d = now w
  /\ exists d', templates st' !! oid = Some d' /\ d = toJSON d'.
Proof.
  intros Hid Hd0 Hput.
  destruct (put_cases w id req_body st) as [H|[H|(oid' & u & d1 & Hid' & _ & _ & Hd1 & H)]];
    rewrite H in Hput; try discriminate Hput.
  injection Hput as <- <-.
  assert (oid' = oid) as -> by congruence.
  assert (d1 = d0) as -> by congruence.
  repeat split; try reflexivity.
  eexists. split; [apply lookup_insert_eq | reflexivity].
Qed.

Lemma update_keeps_identity_witness :
  let d := toJSON (applyUpdate sample_world
                     {| set_title := Some None; set_sections := None |} stored_welcome) in
  let st' := (put_email_template sample_world (toHexString 255%N)
                (Obj [("title", Null)]) one_template).1 in
  _id d = _id stored_welcome /\ createdAt d = createdAt stored_welcome
  /\ __v d = __v stored_welcome /\ updatedAt d = now sample_world
  /\ exists d', templates st' !! 255%N = Some d' /\ d = toJSON d'.
Proof.
  intros d st'.
  apply (update_keeps_identity sample_world (toHexString 255%N) 255%N
           (Obj [("title", Null)]) stored_welcome d one_template st').
  - reflexivity.
  - reflexivity.
  - reflexivity.
Defined.

(** *** Requests that are refused, and the two stores *)

(** X7: a request for one of the five template routes that is answered
    with an error status (404 or 500) leaves the state exactly as it was. *)
Theorem refused_request_changes_nothing (w : world) (req : request) (st : state) :
  is_upload req = false ->
  (400 <= status (handle w req st).2)%N ->
  (handle w req st).1 = st.
Proof.
  intros Hroute Herr. destruct req as [b| |id|id b|id|form]; cbn [handle] in *.
  - destruct (post_cases w b st) as [H|(t & secs & _ & _ & H)]; cbn zeta in H;
      rewrite H in *; [reflexivity|]. cbn in Herr. lia.
  - unfold get_email_templates, find. destruct (mongo_up w); reflexivity.
  - unfold get_email_template. destruct (findById w id (templates st)) as [|[|]]; reflexivity.
  - destruct (put_cases w id b st) as [H|[H|(oid & u & d0 & _ & _ & _ & _ & H)]];
      rewrite H in *; [reflexivity..|]. cbn in Herr. lia.
  - destruct (delete_cases w id st) as [H|[H|(oid & d0 & _ & _ & _ & H)]];
      rewrite H in *; [reflexivity..|]. cbn in Herr. lia.
  - discriminate Hroute.
Qed.

Lemma refused_request_changes_nothing_witness :
  (handle sample_world (PUT_email_template "not-an-id" welcome) one_template).1
  = one_template.
Proof.
  apply (refused_request_changes_nothing sample_world
           (PUT_email_template "not-an-id" welcome) one_template).
  - reflexivity.
  - vm_compute. discriminate.
Defined.

Lemma stores_separate_upload w form st :
  templates (handle w (POST_upload_image form) st).1 = templates st.
Proof.
  cbn [handle]. unfold post_upload_image.
  destruct (single w storage "image" form (media st)) as [held [e|[f|]]]; reflexivity.
Qed.

Lemma stores_separate_template w req st :
  is_upload req = false -> media (handle w req st).1 = media st.
Proof.
  destruct req as [b| |id|id b|id|form]; cbn [handle is_upload]; intros Hroute.
  - destruct (post_cases w b st) as [H|(t & secs & _ & _ & H)]; cbn zeta in H;
      rewrite H; reflexivity.
  - unfold get_email_templates, find. destruct (mongo_up w); reflexivity.
  - unfold get_email_template. destruct (findById w id (templates st)) as [|[|]]; reflexivity.
  - destruct (put_cases w id b st) as [H|[H|(oid & u & d0 & _ & _ & _ & _ & H)]];
      rewrite H; reflexivity.
  - destruct (delete_cases w id st) as [H|[H|(oid & d0 & _ & _ & _ & H)]];
      rewrite H; reflexivity.
  - discriminate Hroute.
Qed.

(** X8: the template routes never touch the media host, and the upload
    route never touches the template store. *)
Theorem stores_are_separate (w : world) (req : request) (st : state) :
  if is_upload req
  then templates (handle w req st).1 = templates st
  else media (handle w req st).1 = media st.
Proof.
  destruct (is_upload req) eqn:Hroute.
  - destruct req; try discriminate Hroute. apply stores_separate_upload.
  - apply stores_separate_template. exact Hroute.
Qed.

(** *** The upload route *)

Lemma receive_attached w ps field parts : forall held taken,
  receive w ps field parts held taken
  = receive_files w ps field (attached (Some parts)) held taken.
Proof.
  induction parts as [|[name val|f] parts IH]; intros held taken.
  - reflexivity.
  - cbn [receive]. apply IH.
  - cbn [receive attached omap list_omap].
    destruct (String.eqb (originalname f) ""); [apply IH|].
    cbn [receive_files].
    destruct (negb (String.eqb (fieldname f) field) || bool_decide (is_Some taken));
      [reflexivity|].
    destruct (upload w ps f held) as [e|[held' u]]; [reflexivity|]. apply IH.
Qed.

Lemma single_attached w ps field form held :
  single w ps field form held = receive_files w ps field (attached form) held None.
Proof. destruct form as [parts|]; [apply receive_attached | reflexivity]. Qed.

Lemma upload_cases w f held :
  (exists e, upload w storage f held = inl e
             /\ (cloudinary_up w = false \/ ~ In (format f) (allowed_formats storage)))
  \/ (cloudinary_up w = true /\ In (format f) (allowed_formats storage)
      /\ upload w storage f held
         = inr ({| asset_folder := folder storage; asset_id := public_id w;
                   asset_format := format f |} :: held,
                {| path := secure_url w; filename := public_id w |})).
Proof.
  unfold upload. destruct (cloudinary_up w); cbn [negb]; [|left; eauto].
  destruct (existsb _ _) eqn:Hallowed.
  - right. apply existsb_exists in Hallowed as (x & Hin & Heq).
    apply String.eqb_eq in Heq. subst x. auto.
  - left. eexists. split; [reflexivity|]. right. intros Hin.
    assert (existsb (String.eqb (format f)) (allowed_formats storage) = true) as Hc.
    { apply existsb_exists. exists (format f). split; [exact Hin | apply String.eqb_refl]. }
    congruence.
Qed.

(** Removing the asset just stored gives back the earlier holdings when its
    name was not in use. *)
Lemma destroy_fresh w f held :
  (forall a, In a held -> asset_id a <> public_id w) ->
  destroy (Some {| path := secure_url w; filename := public_id w |})
    ({| asset_folder := folder storage; asset_id := public_id w;
        asset_format := format f |} :: held) = held.
Proof.
  intros Hfresh. cbn [destroy filename].
  rewrite filter_cons_False by (cbn; intros H; apply H; reflexivity).
  induction held as [|a held IH]; [reflexivity|].
  rewrite filter_cons_True by (cbn; apply Hfresh; left; reflexivity).
  f_equal. apply IH. intros a' Ha'. apply Hfresh. right. exact Ha'.
Qed.

(** X9: POST /api/upload-image answers 200 exactly when the host is
    reachable and the form carries one named file in all, under [image] and of
    an allowed format.  It then adds exactly one asset, in "email-images", of
    that file's format, and returns the host's URL for it. *)
Theorem upload_answers_200_iff (w : world) (form : option (list part)) (st : state) :
  (status (post_upload_image w form st).2 = 200%N <->
   cloudinary_up w = true
   /\ exists f, attached form = [f] /\ fieldname f = "image"
                /\ In (format f) ["jpg"; "png"; "jpeg"; "gif"])
  /\ (forall f, attached form = [f] ->
        status (post_upload_image w form st).2 = 200%N ->
        post_upload_image w form st
        = ({| templates := templates st;
              media := {| asset_folder := "email-images"; asset_id := public_id w;
                          asset_format := format f |} :: media st |},
           {| status := 200; body := ImageUrl (secure_url w) |})).
Proof.
  unfold post_upload_image. rewrite single_attached.
  destruct (attached form) as [|f [|g rest]].
  - cbn [receive_files].
    split; [|discriminate]. split; [discriminate|]. intros (_ & f & Hf & _). discriminate Hf.
  - cbn [receive_files].
    destruct (String.eqb (fieldname f) "image") eqn:Hfield; cbn [negb orb].
    + apply String.eqb_eq in Hfield. rewrite bool_decide_eq_false_2 by (intros [? ?]; discriminate).
      destruct (upload_cases w f (media st)) as [(e & He & Hwhy)|(Hup & Hin & Hok)].
      * rewrite He. split; [|discriminate]. split; [discriminate|].
        intros (Hup & f' & Hf' & _ & Hin). injection Hf' as <-.
        destruct Hwhy as [Hdown|Hnot]; [congruence | contradiction].
      * rewrite Hok. split.
        -- split; [|reflexivity]. intros _. split; [exact Hup|]. exists f. auto.
        -- intros f' Hf' _. injection Hf' as <-. reflexivity.
    + split; [|discriminate]. split; [discriminate|].
      intros (_ & f' & Hf' & Hfield' & _). injection Hf' as <-.
      apply String.eqb_neq in Hfield. contradiction.
  - assert (Hno : forall held r,
              receive_files w storage "image" (f :: g :: rest) (media st) None = (held, r) ->
              exists e, r = inl e).
    { intros held r. cbn [receive_files].
      destruct (negb (String.eqb (fieldname f) "image") || bool_decide (is_Some None));
        [intros [= <- <-]; eauto|].
      destruct (upload w storage f (media st)) as [e|[held' u]]; [intros [= <- <-]; eauto|].
      rewrite (bool_decide_eq_true_2 (is_Some (Some u))) by eauto.
      rewrite orb_true_r. intros [= <- <-]; eauto. }
    destruct (receive_files w storage "image" (f :: g :: rest) (media st) None)
      as [held r] eqn:Hr.
    destruct (Hno held r eq_refl) as [e ->]. cbn [snd status].
    split; [|discriminate]. split; [intros H; discriminate H|].
    intros (_ & f' & Hf' & _). discriminate Hf'.
Qed.

(** X10: when the name the host gives the next asset is not in use, an
    upload request that is not answered 200 leaves the state as it was: no
    asset stays behind, also when a first file had already been stored before
    the request was aborted. *)
Theorem failed_upload_leaves_nothing (w : world) (form : option (list part))
    (st : state) :
  (forall a, In a (media st) -> asset_id a <> public_id w) ->
  status (post_upload_image w form st).2 <> 200%N ->
  (post_upload_image w form st).1 = st.
Proof.
  intros Hfresh Hnot. revert Hnot.
  unfold post_upload_image. rewrite single_attached.
  destruct (attached form) as [|f rest]; cbn [receive_files].
  - intros _. apply state_eta_.
  - destruct (negb (String.eqb (fieldname f) "image") || bool_decide (is_Some None));
      [intros _; apply state_eta_|].
    destruct (upload_cases w f (media st)) as [(e & He & _)|(_ & _ & Hok)].
    + rewrite He. intros _. apply state_eta_.
    + rewrite Hok. destruct rest as [|g rest]; cbn [receive_files].
      * intros Hnot. exfalso. apply Hnot. reflexivity.
      * rewrite (bool_decide_eq_true_2 (is_Some (Some _))) by eauto.
        rewrite orb_true_r. intros _. cbn [fst].
        rewrite (destroy_fresh w f (media st) Hfresh). apply state_eta_.
Qed.

Lemma failed_upload_leaves_nothing_witness :
  (post_upload_image sample_world
     (Some [FilePart {| fieldname := "image"; originalname := "a.png"; format := "png" |};
            FilePart {| fieldname := "image"; originalname := "b.png"; format := "png" |}])
     one_template).1 = one_template.
Proof.
  apply (failed_upload_leaves_nothing sample_world
     (Some [FilePart {| fieldname := "image"; originalname := "a.png"; format := "png" |};
            FilePart {| fieldname := "image"; originalname := "b.png"; format := "png" |}])
     one_template).
  - intros a Ha. vm_compute in Ha. destruct Ha.
  - vm_compute. discriminate.
Defined.

(** *** The middlewares in front of the routes *)

Lemma serve_routed w req st :
  serve w (Routed req) st
  = ((handle w req st).1,
     {| reply_status := status (handle w req st).2;
        reply_headers := routed_headers;
        reply_body := Some (body (handle w req st).2) |}).
Proof.
  unfold serve. destruct req; cbn [method requested cors String.eqb Ascii.eqb Bool.eqb];
    destruct (handle w _ st) as [st' res]; reflexivity.
Qed.

(** X11: every preflight (OPTIONS) request is answered by the first
    middleware, [cors()] with the package defaults: status 204, any origin
    allowed, the default method list, no credentials header, and the state
    untouched.  The origin, method list and credentials of [corsOptions]
    therefore reach no preflight answer. *)
Theorem preflight_is_answered_by_default_cors (w : world)
    (requested_headers : option string) (st : state) :
  serve w (OPTIONS requested_headers) st
  = (st, {| reply_status := 204;
            reply_headers := preflight_headers requested_headers;
            reply_body := None |}).
Proof.
  unfold serve, preflight_headers. cbn [method requested cors String.eqb Ascii.eqb Bool.eqb].
  destruct requested_headers as [s|]; cbn; [|reflexivity].
  destruct (String.eqb s ""); reflexivity.
Qed.

(** X12: every request for a route runs its handler once and is answered
    with the handler's status and body under the headers of the second
    middleware: the one fixed frontend origin, whatever origin asked, and
    credentials allowed. *)
Theorem routed_reply_has_fixed_origin (w : world) (req : request) (st : state) :
  serve w (Routed req) st
  = ((handle w req st).1,
     {| reply_status := status (handle w req st).2;
        reply_headers :=
          {| allow_origin := Some "https://emailbuilder-frontend.vercel.app";
             allow_credentials := Some "true";
             allow_methods := None;
             allow_headers := None;
             vary := ["Origin"] |};
        reply_body := Some (body (handle w req st).2) |}).
Proof. apply serve_routed. Qed.

(** *** Invariants of the reachable states *)

Lemma handle_well_keyed w req st : well_keyed st -> well_keyed (handle w req st).1.
Proof.
  intros Hwk. destruct req as [b| |id|id b|id|form]; cbn [handle].
  - destruct (post_cases w b st) as [H|(t & secs & _ & _ & H)]; cbn zeta in H;
      rewrite H; [exact Hwk|].
    intros oid d. cbn [fst templates]. rewrite lookup_insert.
    case_decide as Hoid.
    + intros [= <-]. subst oid. split; [reflexivity | apply new_ObjectId_range].
    + apply Hwk.
  - unfold get_email_templates, find. destruct (mongo_up w); exact Hwk.
  - unfold get_email_template. destruct (findById w id (templates st)) as [|[|]]; exact Hwk.
  - destruct (put_cases w id b st) as [H|[H|(oid & u & d0 & _ & _ & _ & Hd0 & H)]];
      rewrite H; [exact Hwk..|].
    intros oid' d. cbn [fst templates]. rewrite lookup_insert.
    case_decide as Hoid.
    + intros [= <-]. subst oid'. cbn [applyUpdate _id]. apply (Hwk oid d0 Hd0).
    + apply Hwk.
  - destruct (delete_cases w id st) as [H|[H|(oid & d0 & _ & _ & _ & H)]];
      rewrite H; [exact Hwk..|].
    intros oid' d. cbn [fst templates]. rewrite lookup_delete.
    case_decide; [discriminate | apply Hwk].
  - pose proof (stores_separate_upload w form st) as Hsame. cbn [handle] in Hsame.
    intros oid d. rewrite Hsame. apply Hwk.
Qed.

Lemma destroy_incl taken held a : In a (destroy taken held) -> In a held.
Proof.
  destruct taken as [u|]; cbn [destroy]; [|auto].
  rewrite <- !list_elem_of_In, list_elem_of_filter. tauto.
Qed.

Lemma receive_files_filed w files : forall held taken a,
  (forall a', In a' held ->
     asset_folder a' = folder storage /\ In (asset_format a') (allowed_formats storage)) ->
  In a (receive_files w storage "image" files held taken).1 ->
  asset_folder a = folder storage /\ In (asset_format a) (allowed_formats storage).
Proof.
  induction files as [|f files IH]; intros held taken a Hheld; cbn [receive_files].
  - apply Hheld.
  - destruct (negb (String.eqb (fieldname f) "image") || bool_decide (is_Some taken)).
    { intros Ha. apply Hheld. exact (destroy_incl _ _ _ Ha). }
    destruct (upload_cases w f held) as [(e & He & _)|(_ & Hin & Hok)].
    + rewrite He. intros Ha. apply Hheld. exact (destroy_incl _ _ _ Ha).
    + rewrite Hok. apply IH. intros a' [<-|Ha']; [split; [reflexivity | exact Hin] | auto].
Qed.

Lemma handle_well_filed w req st : well_filed st -> well_filed (handle w req st).1.
Proof.
  intros Hwf. destruct (is_upload req) eqn:Hroute.
  - destruct req as [| | | | |form]; try discriminate Hroute.
    intros a. cbn [handle]. unfold post_upload_image. rewrite single_attached.
    pose proof (receive_files_filed w (attached form) (media st) None a Hwf) as Hfiled.
    destruct (receive_files w storage "image" (attached form) (media st) None)
      as [held [e|[u|]]]; exact Hfiled.
  - intros a. rewrite (stores_separate_template w req st Hroute). apply Hwf.
Qed.

Lemma serve_state w i st :
  (serve w i st).1 = match i with
                     | OPTIONS _ => st
                     | Routed req => (handle w req st).1
                     end.
Proof.
  destruct i as [rh|req]; [|rewrite serve_routed; reflexivity].
  unfold serve. cbn [method requested cors String.eqb Ascii.eqb Bool.eqb]. reflexivity.
Qed.

Lemma run_invariant (I : state -> Prop) :
  (forall w req st, I st -> I (handle w req st).1) ->
  forall trace st, I st -> I (run trace st).
Proof.
  intros Hstep trace. induction trace as [|[w i] trace IH]; intros st Hst; [exact Hst|].
  cbn [run]. apply IH. rewrite serve_state. destruct i; [exact Hst | apply Hstep, Hst].
Qed.

(** X13: in every state the application reaches from the empty one, by any
    sequence of requests in any worlds, each template is stored under the
    [_id] it carries, that id is a 12-byte value, and each asset on the media
    host lies in "email-images" with one of the four allowed formats. *)
Theorem reachable_states_are_well_formed (trace : list (world * incoming)) :
  well_keyed (run trace empty_state) /\ well_filed (run trace empty_state).
Proof.
  split.
  - apply (run_invariant well_keyed handle_well_keyed).
    intros oid d Hd. cbn in Hd. rewrite lookup_empty in Hd. discriminate Hd.
  - apply (run_invariant well_filed handle_well_filed).
    intros a Ha. destruct Ha.
Qed.

(** X14: in a reachable state, every document a listing shows can be
    fetched by the id printed in it, and getById answers 200 with that very
    document. *)
Theorem listed_is_fetchable (trace : list (world * incoming)) (w w' : world)
    (docs : list document) (d : document) :
  (get_email_templates w (run trace empty_state)).2
  = {| status := 200; body := Templates docs |} ->
  d ∈ docs ->
  mongo_up w' = true ->
  get_email_template w' (toHexString (_id d)) (run trace empty_state)
  = (run trace empty_state, {| status := 200; body := Template d |}).
Proof.
  intros Hlist Hd Hup.
  pose proof (run_invariant well_keyed handle_well_keyed trace empty_state) as Hwk.
  set (st := run trace empty_state) in *.
  assert (well_keyed st) as Hst.
  { apply Hwk. intros oid d0 Hd0. cbn in Hd0. rewrite lookup_empty in Hd0. discriminate Hd0. }
  unfold get_email_templates, find in Hlist.
  destruct (mongo_up w); [|discriminate Hlist].
  cbn [snd json] in Hlist. injection Hlist as <-.
  apply list_elem_of_fmap in Hd as (d0 & -> & Hin).
  apply list_elem_of_fmap in Hin as ([oid d1] & -> & Hin).
  apply elem_of_map_to_list in Hin. cbn [snd].
  destruct (Hst oid d1 Hin) as [Hid Hrange].
  unfold get_email_template, findById. cbn [toJSON _id]. rewrite Hid.
  rewrite (castObjectId_toHexString oid Hrange), Hup, Hin. reflexivity.
Qed.

Lemma listed_is_fetchable_witness :
  get_email_template sample_world (toHexString 255%N)
    (run [(sample_world, Routed (POST_email_templates welcome))] empty_state)
  = (run [(sample_world, Routed (POST_email_templates welcome))] empty_state,
     {| status := 200; body := Template stored_welcome |}).
Proof.
  apply (listed_is_fetchable [(sample_world, Routed (POST_email_templates welcome))]
           sample_world sample_world [stored_welcome] stored_welcome).
  - vm_compute. reflexivity.
  - apply list_elem_of_here.
  - reflexivity.
Defined.

(** *** Ids *)

Lemma hexval_lt c d : hexval c = Some d -> (d < 16)%N.
Proof.
  unfold hexval. cbn zeta.
  destruct ((48 <=? N_of_ascii c)%N && (N_of_ascii c <=? 57)%N) eqn:H1.
  { apply andb_prop in H1 as [Ha Hb]. apply N.leb_le in Ha, Hb. intros [= <-]. lia. }
  destruct ((97 <=? N_of_ascii c)%N && (N_of_ascii c <=? 102)%N) eqn:H2.
  { apply andb_prop in H2 as [Ha Hb]. apply N.leb_le in Ha, Hb. intros [= <-]. lia. }
  destruct ((65 <=? N_of_ascii c)%N && (N_of_ascii c <=? 70)%N) eqn:H3; [|discriminate].
  apply andb_prop in H3 as [Ha Hb]. apply N.leb_le in Ha, Hb. intros [= <-]. lia.
Qed.

Lemma parse_hex_bound s : forall acc n,
  parse_hex acc s = Some n -> (n < (acc + 1) * 16 ^ N.of_nat (String.length s))%N.
Proof.
  induction s as [|c s IH]; intros acc n; cbn [parse_hex String.length].
  - intros [= <-]. cbn. lia.
  - destruct (hexval c) as [d|] eqn:Hd; [|discriminate].
    intros Hn. apply IH in Hn. apply hexval_lt in Hd.
    rewrite Nat2N.inj_succ, N.pow_succ_r'.
    eapply N.lt_le_trans; [exact Hn|].
    rewrite N.mul_assoc.
    apply N.mul_le_mono_r. lia.
Qed.

(** X15: printing and casting ids are inverse to each other on 12-byte
    values: the 24 characters printed for an id cast back to it, and every
    string that casts at all casts to a 12-byte value whose printed form casts
    to the same value. *)
Theorem objectid_hex_round_trip :
  (forall oid, (oid < 16 ^ 24)%N ->
     String.length (toHexString oid) = 24%nat
     /\ castObjectId (toHexString oid) = Some oid)
  /\ (forall id oid, castObjectId id = Some oid ->
        String.length id = 24%nat
        /\ (oid < 16 ^ 24)%N
        /\ castObjectId (toHexString oid) = Some oid).
Proof.
  split.
  - intros oid Hlt. split; [apply hex_digits_length | apply castObjectId_toHexString, Hlt].
  - intros id oid Hid.
    assert (Hlen : String.length id = 24%nat) by exact (castObjectId_length id oid Hid).
    assert (Hlt : (oid < 16 ^ 24)%N).
    { unfold castObjectId in Hid. rewrite Hlen in Hid. cbn [Nat.eqb] in Hid.
      apply parse_hex_bound in Hid. rewrite Hlen in Hid.
      change (N.of_nat 24) with 24%N in Hid. lia. }
    split; [exact Hlen|]. split; [exact Hlt|].
    apply castObjectId_toHexString, Hlt.
Qed.

(** X16: the spelling of an id does not matter: getById, update and delete
    treat any id that casts (upper or lower case digits) exactly like its
    printed lowercase form. *)
Theorem id_spelling_is_immaterial (w : world) (id : string) (oid : ObjectId)
    (req_body : value) (st : state) :
  castObjectId id = Some oid ->
  get_email_template w id st = get_email_template w (toHexString oid) st
  /\ put_email_template w id req_body st
     = put_email_template w (toHexString oid) req_body st
  /\ delete_email_template w id st = delete_email_template w (toHexString oid) st.
Proof.
  intros Hid.
  assert (Hcanon : castObjectId (toHexString oid) = Some oid).
  { unfold castObjectId in Hid |- *.
    destruct (Nat.eqb (String.length id) 24) eqn:Hlen; [|discriminate].
    apply Nat.eqb_eq in Hlen. apply parse_hex_bound in Hid. rewrite Hlen in Hid.
    change (N.of_nat 24) with 24%N in Hid.
    apply castObjectId_toHexString. lia. }
  unfold get_email_template, put_email_template, delete_email_template,
    findById, findByIdAndUpdate, findByIdAndDelete.
  rewrite Hid, Hcanon. repeat split; reflexivity.
Qed.

Lemma id_spelling_is_immaterial_witness :
  get_email_template sample_world "0000000000000000000000FF" one_template
  = get_email_template sample_world (toHexString 255%N) one_template
  /\ put_email_template sample_world "0000000000000000000000FF" welcome one_template
     = put_email_template sample_world (toHexString 255%N) welcome one_template
  /\ delete_email_template sample_world "0000000000000000000000FF" one_template
     = delete_email_template sample_world (toHexString 255%N) one_template.
Proof.
  apply (id_spelling_is_immaterial sample_world "0000000000000000000000FF" 255%N
           welcome one_template).
  reflexivity.
Defined.

(** *** Validation, failures and what is sent back *)

(** X17: the validators run on create only.  A body whose title is the
    empty string (its sections left out or an array of plain values) is
    refused by create (500, nothing stored), while the same body sent as an
    update of a stored template is answered 200 and leaves that template
    stored with an empty title. *)
Theorem update_accepts_empty_title (w : world) (id : string) (oid : ObjectId)
    (req_body : value) (d0 : document) (st : state) :
  mongo_up w = true ->
  castObjectId id = Some oid ->
  templates st !! oid = Some d0 ->
  prop "title" req_body = Some (Str "") ->
  plain_update req_body = true ->
  post_email_templates w req_body st = (st, create_failed)
  /\ exists st' d d',
       put_email_template w id req_body st
       = (st', {| status := 200; body := Template d |})
       /\ title d = Some ""
       /\ templates st' !! oid = Some d' /\ title d' = Some "".
Proof.
  intros Hup Hid Hd0 Htitle _. split.
  - unfold post_email_templates. rewrite Htitle. reflexivity.
  - unfold put_email_template, findByIdAndUpdate.
    rewrite Hid, Htitle. cbn [castUpdate castString]. rewrite Hup, Hd0. cbn [negb].
    eexists _, _, _. split; [reflexivity|]. split; [reflexivity|].
    split; [apply lookup_insert_eq | reflexivity].
Qed.

Lemma update_accepts_empty_title_witness :
  post_email_templates sample_world (Obj [("title", Str "")]) one_template
  = (one_template, create_failed)
  /\ exists st' d d',
       put_email_template sample_world (toHexString 255%N) (Obj [("title", Str "")])
         one_template
       = (st', {| status := 200; body := Template d |})
       /\ title d = Some ""
       /\ templates st' !! 255%N = Some d' /\ title d' = Some "".
Proof.
  apply (update_accepts_empty_title sample_world (toHexString 255%N) 255%N
           (Obj [("title", Str "")]) stored_welcome one_template); reflexivity.
Defined.

Lemma receive_store_up w ps field parts : forall held taken,
  receive w ps field parts held taken
  = receive (with_store_up w) ps field parts held taken.
Proof.
  induction parts as [|[name val|f] parts IH]; intros held taken; cbn [receive].
  - reflexivity.
  - apply IH.
  - destruct (String.eqb (originalname f) ""); [apply IH|].
    destruct (negb (String.eqb (fieldname f) field) || bool_decide (is_Some taken));
      [reflexivity|].
    change (upload (with_store_up w) ps f held) with (upload w ps f held).
    destruct (upload w ps f held) as [e|[held' u]]; [reflexivity | apply IH].
Qed.

(** X18: when the connection to the store does not work, each of the five
    template routes answers 500 and changes nothing, for every request; the
    upload route answers exactly as it would with a working store. *)
Theorem store_down (w : world) (req : request) (st : state) :
  mongo_up w = false ->
  if is_upload req
  then handle w req st = handle (with_store_up w) req st
  else (handle w req st).1 = st /\ status (handle w req st).2 = 500%N.
Proof.
  intros Hdown. destruct req as [b| |id|id b|id|form]; cbn [is_upload handle].
  - unfold post_email_templates, save. destruct (validate _); rewrite ?Hdown; split; reflexivity.
  - unfold get_email_templates, find. rewrite Hdown. split; reflexivity.
  - unfold get_email_template, findById. destruct (castObjectId id); rewrite ?Hdown;
      split; reflexivity.
  - unfold put_email_template, findByIdAndUpdate.
    destruct (castObjectId id); [|split; reflexivity].
    destruct (castUpdate _ _); rewrite ?Hdown; split; reflexivity.
  - unfold delete_email_template, findByIdAndDelete.
    destruct (castObjectId id); rewrite ?Hdown; split; reflexivity.
  - unfold post_upload_image, single. destruct form as [parts|]; [|reflexivity].
    rewrite <- receive_store_up. reflexivity.
Qed.

Lemma store_down_witness :
  (handle {| now := 1; entropy := 2; mongo_up := false; cloudinary_up := true;
             public_id := "p"; secure_url := "u" |}
     (DELETE_email_template (toHexString 255%N)) one_template).1 = one_template
  /\ status (handle {| now := 1; entropy := 2; mongo_up := false; cloudinary_up := true;
                       public_id := "p"; secure_url := "u" |}
               (DELETE_email_template (toHexString 255%N)) one_template).2 = 500%N.
Proof.
  apply (store_down {| now := 1; entropy := 2; mongo_up := false; cloudinary_up := true;
                       public_id := "p"; secure_url := "u" |}
           (DELETE_email_template (toHexString 255%N)) one_template).
  reflexivity.
Defined.

(** X19: an error answer that a handler of [server.js] sends carries a
    body fixed by the route and the status alone: for the five template
    routes one of the static messages, so which failure happened (cast,
    validation, duplicate key, connection) never shows; for the upload route
    "No image uploaded." with 400.  (What Express sends when the upload
    middleware aborts comes from no handler and is left out.) *)
Theorem error_bodies_are_static (w : world) (req : request) (st : state) :
  (400 <= status (handle w req st).2)%N ->
  (is_upload req = true -> status (handle w req st).2 = 400%N) ->
  body (handle w req st).2 = error_body req (status (handle w req st).2).
Proof.
  destruct req as [b| |id|id b|id|form]; cbn [handle is_upload].
  - intros H400 _. revert H400.
    destruct (post_cases w b st) as [H|(t & secs & _ & _ & H)]; cbn zeta in H;
      rewrite H; [reflexivity|]. cbn. lia.
  - intros H400 _. revert H400.
    unfold get_email_templates, find. destruct (mongo_up w); [cbn; lia | reflexivity].
  - intros H400 _. revert H400.
    unfold get_email_template. destruct (findById w id (templates st)) as [|[|]];
      [reflexivity | cbn; lia | reflexivity].
  - intros H400 _. revert H400.
    destruct (put_cases w id b st) as [H|[H|(oid & u & d0 & _ & _ & _ & _ & H)]];
      rewrite H; [reflexivity..|]. cbn. lia.
  - intros H400 _. revert H400.
    destruct (delete_cases w id st) as [H|[H|(oid & d0 & _ & _ & _ & H)]];
      rewrite H; [reflexivity..|]. cbn. lia.
  - intros _ Hhandler. specialize (Hhandler eq_refl). revert Hhandler.
    unfold post_upload_image.
    destruct (single w storage "image" form (media st)) as [held [e|[f|]]];
      cbn; [discriminate | discriminate | reflexivity].
Qed.

Lemma error_bodies_are_static_witness :
  body (handle sample_world (GET_email_template "abc") one_template).2
  = error_body (GET_email_template "abc")
      (status (handle sample_world (GET_email_template "abc") one_template).2).
Proof.
  apply (error_bodies_are_static sample_world (GET_email_template "abc") one_template).
  - vm_compute. discriminate.
  - intros H. discriminate H.
Defined.

(** *** What the copy sends back *)

(** Whatever the copy yields is minimal. *)
Lemma clone_is_minimal v : forall b v', clone b v = Some v' -> minimal b v' = true.
Proof.
  induction v as [ |b0|r|s|items IH|props IH] using value_ind; intros b v' Hc;
    try (cbn in Hc; injection Hc as <-; reflexivity).
  - rewrite clone_Arr in Hc. injection Hc as <-. rewrite minimal_Arr.
    induction IH as [|x items Hx _ IHitems]; [reflexivity|].
    cbn [cloneArray map forallb]. apply andb_true_intro. split; [|exact IHitems].
    destruct (clone true x) as [y|] eqn:Hy; cbn; [exact (Hx true y Hy) | reflexivity].
  - rewrite clone_Obj in Hc.
    assert (Hall : forallb (fun kv => negb (specialProperties kv.1) && minimal false kv.2)
                     (cloneObject props) = true).
    { clear Hc. induction IH as [|[k x] props Hx _ IHprops]; [reflexivity|].
      cbn [cloneObject]. destruct (specialProperties k) eqn:Hk; [exact IHprops|].
      cbn [snd] in Hx. destruct (clone false x) as [y|] eqn:Hy; [|exact IHprops].
      cbn [forallb fst snd]. rewrite Hk, (Hx false y Hy). exact IHprops. }
    destruct b.
    + injection Hc as <-. rewrite minimal_Obj, Hall. reflexivity.
    + destruct (cloneObject props) as [|kv ret] eqn:Hret; [discriminate|].
      injection Hc as <-. rewrite minimal_Obj, Hall. reflexivity.
Qed.

Lemma toJSON_sections_minimal x secs :
  sections (toJSON x) = Some secs -> minimal false (Arr secs) = true.
Proof.
  destruct x as [i t [s|] c u v]; unfold toJSON; cbn -[cloneArray]; [|discriminate].
  intros [= <-]. exact (clone_is_minimal (Arr s) false _ (clone_Arr false s)).
Qed.

Lemma sent_document_is_toJSON w req st d :
  body (handle w req st).2 = Template d
  \/ (exists docs, body (handle w req st).2 = Templates docs /\ d ∈ docs) ->
  exists x, d = toJSON x.
Proof.
  destruct req as [b| |id|id b|id|form]; cbn [handle].
  - destruct (post_cases w b st) as [H|(t & secs & _ & _ & H)]; cbn zeta in H; rewrite H.
    + intros [H'|(docs & H' & _)]; discriminate H'.
    + intros [[= <-]|(docs & H' & _)]; [eauto | discriminate H'].
  - unfold get_email_templates, find. destruct (mongo_up w).
    + intros [H'|(docs & [= <-] & Hd)]; [discriminate H'|].
      apply list_elem_of_fmap in Hd as (x & -> & _). eauto.
    + intros [H'|(docs & H' & _)]; discriminate H'.
  - unfold get_email_template. destruct (findById w id (templates st)) as [|[x|]];
      (intros [H'|(docs & H' & _)]; [|discriminate H']); try discriminate H'.
    injection H' as <-. eauto.
  - destruct (put_cases w id b st) as [H|[H|(oid & u & d0 & _ & _ & _ & _ & H)]]; rewrite H;
      (intros [H'|(docs & H' & _)]; [|discriminate H']); try discriminate H'.
    injection H' as <-. eauto.
  - destruct (delete_cases w id st) as [H|[H|(oid & d0 & _ & _ & _ & H)]]; rewrite H;
      intros [H'|(docs & H' & _)]; discriminate H'.
  - unfold post_upload_image.
    destruct (single w storage "image" form (media st)) as [held [e|[f|]]];
      intros [H'|(docs & H' & _)]; discriminate H'.
Qed.

(** X20: when the stored sections and the sections a request submits are
    plain, no document the server sends, alone or in a listing, has a section
    with an empty object as a property value at any depth: the sections sent
    are always minimal. *)
Theorem sent_documents_are_minimal (w : world) (req : request) (st : state)
    (d : document) (secs : list value) :
  plain_state st ->
  plain_request req = true ->
  body (handle w req st).2 = Template d
  \/ (exists docs, body (handle w req st).2 = Templates docs /\ d ∈ docs) ->
  sections d = Some secs ->
  minimal false (Arr secs) = true.
Proof.
  intros _ _ Hsent Hsecs. destruct (sent_document_is_toJSON w req st d Hsent) as [x ->].
  exact (toJSON_sections_minimal x secs Hsecs).
Qed.

Lemma sent_documents_are_minimal_witness :
  minimal false (Arr [Obj [("type", Str "text")]]) = true.
Proof.
  apply (sent_documents_are_minimal sample_world (GET_email_template (toHexString 255%N))
           {| templates := {[ 255%N := stored_styled ]}; media := [] |}
           (toJSON stored_styled) [Obj [("type", Str "text")]]).
  - intros oid d Hd. cbn [templates] in Hd.
    apply lookup_singleton_Some in Hd as [_ <-]. vm_compute. reflexivity.
  - reflexivity.
  - left. reflexivity.
  - reflexivity.
Defined.

(** *** Sequences of requests *)

(** X21: once delete has answered 200 for an id, update (with a plain
    update body) and a second delete of that id answer 404 and change
    nothing. *)
Theorem deleted_is_gone (w w' : world) (id : string) (req_body : value)
    (st st' : state) :
  delete_email_template w id st
  = (st', {| status := 200; body := Message "Template deleted successfully." |}) ->
  mongo_up w' = true ->
  plain_update req_body = true ->
  put_email_template w' id req_body st' = (st', not_found)
  /\ delete_email_template w' id st' = (st', not_found).
Proof.
  intros Hdel Hup Hplain.
  destruct (plain_update_casts req_body Hplain) as [u Hcast].
  destruct (delete_cases w id st) as [H|[H|(oid & d0 & Hid & _ & _ & H)]];
    rewrite H in Hdel; try discriminate Hdel.
  injection Hdel as <-.
  unfold put_email_template, delete_email_template, findByIdAndUpdate, findByIdAndDelete.
  rewrite Hid, Hcast, Hup. cbn [negb templates media]. rewrite lookup_delete_eq.
  split; reflexivity.
Qed.

Lemma deleted_is_gone_witness :
  put_email_template sample_world (toHexString 255%N) welcome empty_state
  = (empty_state, not_found)
  /\ delete_email_template sample_world (toHexString 255%N) empty_state
     = (empty_state, not_found).
Proof.
  apply (deleted_is_gone sample_world sample_world (toHexString 255%N) welcome
           one_template empty_state).
  - vm_compute. reflexivity.
  - reflexivity.
  - vm_compute. reflexivity.
Defined.

(** X22: update is idempotent: sending the same update again in the same
    world leaves the state it produced and gets the same answer. *)
Theorem update_is_idempotent (w : world) (id : string) (req_body : value) (st : state) :
  put_email_template w id req_body (put_email_template w id req_body st).1
  = put_email_template w id req_body st.
Proof.
  destruct (put_cases w id req_body st) as [H|[H|(oid & u & d0 & Hid & Hcast & Hup & Hd0 & H)]];
    rewrite H; cbn [fst]; [exact H..|].
  unfold put_email_template, findByIdAndUpdate.
  rewrite Hid, Hcast, Hup. cbn [negb templates media].
  rewrite lookup_insert_eq, insert_insert_eq.
  assert (Hidem : applyUpdate w u (applyUpdate w u d0) = applyUpdate w u d0).
  { unfold applyUpdate. cbn [_id title sections createdAt updatedAt __v].
    destruct (set_title u), (set_sections u); reflexivity. }
  rewrite Hidem. reflexivity.
Qed.

(** X23: create followed by delete of the created id gives back the
    template store as it was before the create. *)
Theorem create_then_delete_restores (w w' : world) (req_body : value) (st st' : state)
    (d : document) :
  post_email_templates w req_body st
  = (st', {| status := 201; body := Template d |}) ->
  mongo_up w' = true ->
  delete_email_template w' (toHexString (_id d)) st'
  = (st, {| status := 200; body := Message "Template deleted successfully." |}).
Proof.
  intros Hpost Hup.
  destruct (post_cases w req_body st) as [H|(t & secs & _ & Hfree & H)]; cbn zeta in H;
    rewrite H in Hpost; [discriminate Hpost|].
  injection Hpost as <- <-.
  unfold delete_email_template, findByIdAndDelete. cbn [toJSON _id templates media].
  rewrite castObjectId_new, Hup. cbn [negb]. rewrite lookup_insert_eq.
  rewrite (delete_insert_id _ _ _ Hfree), state_eta_. reflexivity.
Qed.

Lemma create_then_delete_restores_witness :
  delete_email_template sample_world (toHexString 255%N)
    (post_email_templates sample_world welcome empty_state).1
  = (empty_state, {| status := 200; body := Message "Template deleted successfully." |}).
Proof.
  apply (create_then_delete_restores sample_world sample_world welcome empty_state
           (post_email_templates sample_world welcome empty_state).1
           (toJSON stored_welcome)).
  - reflexivity.
  - reflexivity.
Defined.

End Behaviour.
